(** * The Leonardo image tool: submit a generation job, then poll for it

    A shallow embedding of [src/agents/tools/leonardo-tool.ts]:
    [pollForCompletion] and the [execute] method of the tool returned by
    [createLeonardoTool], together with the schema
    [LeonardoGenerateImageSchema].

    The two asynchronous functions are written in a small state-and-exception
    monad.  The state is the trace of the effects performed so far (timer
    sleeps and [fetch] calls); the remote service is a function giving the
    outcome of the n-th [fetch] for the request that was sent. *)

From Stdlib Require Import QArith Qround.
From stdpp Require Import base numbers strings list gmap pretty.

Local Open Scope string_scope.
Local Open Scope list_scope.
Local Open Scope Z_scope.

(** ** JavaScript values

    What [JSON.parse] yields, plus [undefined].  Objects are finite maps from
    property names to values. *)

#[warnings="-register-all"]
Inductive jsval : Type :=
  | VUndef
  | VNull
  | VBool (b : bool)
  | VNum (q : Q)
  | VStr (s : string)
  | VArr (items : list jsval)
  | VObj (fields : gmap string jsval).

(** [Boolean(v)], which is also the test made by [!v] and [a || b]. *)
Definition truthy (v : jsval) : bool :=
  match v with
  | VUndef | VNull => false
  | VBool b => b
  | VNum q => negb (Qeq_bool q 0)
  | VStr s => negb (String.eqb s "")
  | VArr _ | VObj _ => true
  end.

(** [v === "lit"] for a string literal. *)
Definition strict_eq_str (v : jsval) (lit : string) : bool :=
  match v with
  | VStr s => String.eqb s lit
  | _ => false
  end.

(** [a ?? b] *)
Definition nullish (v : jsval) : bool :=
  match v with
  | VUndef | VNull => true
  | _ => false
  end.

Definition coalesce (a b : jsval) : jsval := if nullish a then b else a.

(** ** Exceptions *)

(** Faults raised by the engine itself rather than by a [throw]. *)
Inductive engine_fault :=
  | ReadOfNullish (base : jsval) (prop : string)
  | NotAFunction (prop : string).

(** A thrown value: an [Error] built by the code or by a callee, a
    [TypeError] of the engine, or a value that is not an [Error], kept by
    what [String(...)] gives for it. *)
Inductive exn :=
  | Error (message : string)
  | TypeError (fault : engine_fault)
  | NonError (rendering : string).

Inductive Result (A : Type) :=
  | Ok (a : A)
  | Throw (e : exn).
Arguments Ok {A} a.
Arguments Throw {A} e.

(** [v.prop], for the property names this file reads ([sdGenerationJob],
    [generationId], [generations_by_pk], [status], [generated_images], [url],
    [num_images], [width], [height]): none of them is inherited from a
    prototype, so on numbers, strings, booleans and arrays the read gives
    [undefined]; on [null] and [undefined] it throws. *)
Definition get_prop (v : jsval) (prop : string) : Result jsval :=
  match v with
  | VUndef | VNull => Throw (TypeError (ReadOfNullish v prop))
  | VObj fields => Ok (default VUndef (fields !! prop))
  | _ => Ok VUndef
  end.

(** [v?.prop] *)
Definition get_prop_opt (v : jsval) (prop : string) : Result jsval :=
  if nullish v then Ok VUndef else get_prop v prop.

(** [xs.map(f)] for a callback that may throw: elements are visited from
    left to right and the first exception ends the traversal. *)
Fixpoint map_result {A B : Type} (f : A -> Result B) (xs : list A) : Result (list B) :=
  match xs with
  | [] => Ok []
  | x :: rest =>
      match f x with
      | Throw e => Throw e
      | Ok y =>
          match map_result f rest with
          | Throw e => Throw e
          | Ok ys => Ok (y :: ys)
          end
      end
  end.

(** [v.map((img) => img.url)]: only arrays have a [map] method here. *)
Definition map_url (v : jsval) : Result (list jsval) :=
  match v with
  | VArr items => map_result (fun img => get_prop img "url") items
  | VUndef | VNull => Throw (TypeError (ReadOfNullish v "map"))
  | _ => Throw (TypeError (NotAFunction "map"))
  end.

(** ** Effects: the trace and the remote service *)

Record GenerationBody := {
  prompt : jsval;
  num_images : jsval;
  width : jsval;
  height : jsval;
  presetStyle : string;
}.

Inductive http_method := GET | POST.

(** The two URLs: [`${LEONARDO_API_BASE}/generations`] and
    [`${LEONARDO_API_BASE}/generations/${generationId}`]; the second keeps
    the interpolated value. *)
Inductive endpoint :=
  | Generations
  | GenerationById (generationId : jsval).

Record Request := {
  method : http_method;
  url : endpoint;
  bearer : string;           (* Authorization: `Bearer ${apiKey}` *)
  body : option GenerationBody;
  signal_ms : Z;             (* withTimeout(undefined, ms) *)
}.

(** What [fetch] resolves to.  [json] is the outcome of [res.json()]. *)
Record Response := {
  ok : bool;
  status : Z;
  statusText : string;
  text : string;
  json : Result jsval;
}.

Inductive event :=
  | EvSleep (ms : Z)
  | EvFetch (req : Request).

Definition is_fetch (e : event) : bool :=
  match e with EvFetch _ => true | EvSleep _ => false end.

Definition is_status_query (e : event) : bool :=
  match e with
  | EvFetch {| method := GET; url := GenerationById _ |} => true
  | _ => false
  end.

Definition is_submission (e : event) : bool :=
  match e with
  | EvFetch {| method := POST |} => true
  | _ => false
  end.

Definition count_fetches (tr : list event) : nat := length (filter is_fetch tr).
Definition status_queries (tr : list event) : nat := length (filter is_status_query tr).
Definition submissions (tr : list event) : nat := length (filter is_submission tr).

Definition slept_ms (tr : list event) : Z :=
  foldr (fun e acc => match e with EvSleep ms => ms + acc | EvFetch _ => acc end) 0 tr.

(** The remote service and the network: the outcome of the n-th [fetch]
    (counted from 0 over the whole run) for the request sent.  [Throw] is a
    rejected promise: a transport error or the abort of the signal. *)
Definition World := nat -> Request -> Result Response.

(** The monad of the two asynchronous functions. *)
Definition M (A : Type) : Type := list event -> Result A * list event.

Definition ret {A} (a : A) : M A := fun tr => (Ok a, tr).
Definition throw {A} (e : exn) : M A := fun tr => (Throw e, tr).
Definition bind {A B} (m : M A) (k : A -> M B) : M B :=
  fun tr =>
    match m tr with
    | (Ok a, tr') => k a tr'
    | (Throw e, tr') => (Throw e, tr')
    end.
Definition lift {A} (r : Result A) : M A := fun tr => (r, tr).

(** [try { body } catch (error) { handler }]: the effects of [body] stay. *)
Definition try_catch {A} (body : M A) (handler : exn -> M A) : M A :=
  fun tr =>
    match body tr with
    | (Ok a, tr') => (Ok a, tr')
    | (Throw e, tr') => handler e tr'
    end.

#[global] Instance M_ret : MRet M := @ret.
#[global] Instance M_bind : MBind M := fun A B k m => bind m k.

Definition sleep (ms : Z) : M unit := fun tr => (Ok tt, tr ++ [EvSleep ms]).

Definition fetch (w : World) (req : Request) : M Response :=
  fun tr => (w (count_fetches tr) req, tr ++ [EvFetch req]).

(** ** The program *)

Definition LEONARDO_API_BASE : string := "https://cloud.leonardo.ai/api/rest/v1".
Definition POLL_INTERVAL_MS : Z := 2000.
Definition POLL_MAX_ATTEMPTS : Z := 30.

(** [withTimeout(undefined, ms)]: an abort signal that fires after [ms]. *)
Definition withTimeout (ms : Z) : Z := ms.

(** [a || b] on strings. *)
Definition or_str (a b : string) : string := if String.eqb a "" then b else a.

(** What [execute] hands to [jsonResult]. *)
Inductive payload :=
  | Generated (generationId : jsval) (imageUrls : list jsval) (count : nat)
  | Failed (error : string) (imageUrls : list jsval).

(** [Math.min(POLL_MAX_ATTEMPTS, Math.floor((timeoutSeconds * 1_000) / POLL_INTERVAL_MS))],
    on integer seconds ([Z.div] rounds down, as [Math.floor] does). *)
Definition maxAttempts_of (timeoutSeconds : Z) : Z :=
  Z.min POLL_MAX_ATTEMPTS ((timeoutSeconds * 1000) / POLL_INTERVAL_MS).

(** How often [for (let attempt = a; attempt < m; attempt++)] runs its body,
    when the body assigns neither [attempt] nor [m]. *)
Definition loop_trips (a m : Z) : nat := Z.to_nat (m - a).

Definition timeout_message (maxAttempts : Z) : string :=
  "Leonardo generation timed out after "
    +:+ pretty (maxAttempts * (POLL_INTERVAL_MS / 1000)) +:+ " seconds".

Section Tool.

(** Imported from [./common.js] and [./web-shared.js], which are not part
    of this file: they are parameters of the development. *)
Variable readStringParam : jsval -> string -> bool -> Result (option string).
Variable readResponseText : Response -> Z -> Result string.
Variable DEFAULT_TIMEOUT_SECONDS : Z.
Variable ToolResult : Type.
Variable jsonResult : payload -> ToolResult.
(** The [message] of a [TypeError] raised by the engine. *)
Variable typeErrorMessage : engine_fault -> string.

Variable w : World.

(** One turn of the loop of [pollForCompletion]: [Some urls] is
    [return urls], [None] falls through to the next turn. *)
Definition poll_cycle (generationId : jsval) (apiKey : string) : M (option (list jsval)) :=
  sleep POLL_INTERVAL_MS;;
  res ← fetch w {| method := GET;
                   url := GenerationById generationId;
                   bearer := apiKey;
                   body := None;
                   signal_ms := withTimeout 15000 |};
  if negb (ok res) then
    detail ← lift (readResponseText res 4000);
    throw (Error ("Leonardo poll error (" +:+ pretty (status res) +:+ "): "
                    +:+ or_str detail (statusText res)))
  else
    data ← lift (json res);
    generation ← lift (get_prop data "generations_by_pk");
    if negb (truthy generation) then
      throw (Error "Leonardo: unexpected poll response shape")
    else
      st ← lift (get_prop generation "status");
      if strict_eq_str st "FAILED" then
        throw (Error "Leonardo generation failed")
      else if strict_eq_str st "COMPLETE" then
        images ← lift (get_prop generation "generated_images");
        mapped ← lift (map_url (coalesce images (VArr [])));
        let urls := filter (fun u => truthy u = true) mapped in
        if (length urls =? 0)%nat then
          throw (Error "Leonardo generation complete but no image URLs returned")
        else mret (Some urls)
      else mret None.

Fixpoint poll_loop (trips : nat) (generationId : jsval) (apiKey : string)
    (maxAttempts : Z) : M (list jsval) :=
  match trips with
  | O => throw (Error (timeout_message maxAttempts))
  | S trips' =>
      r ← poll_cycle generationId apiKey;
      match r with
      | Some urls => mret urls
      | None => poll_loop trips' generationId apiKey maxAttempts
      end
  end.

Definition pollForCompletion (generationId : jsval) (apiKey : string)
    (timeoutSeconds : Z) : M (list jsval) :=
  let maxAttempts := maxAttempts_of timeoutSeconds in
  poll_loop (loop_trips 0 maxAttempts) generationId apiKey maxAttempts.

Definition str_or_undef (s : option string) : jsval :=
  match s with Some s => VStr s | None => VUndef end.

(** [error instanceof Error ? error.message : String(error)] *)
Definition error_text (error : exn) : string :=
  match error with
  | Error message => message
  | TypeError fault => typeErrorMessage fault
  | NonError rendering => rendering
  end.

Definition execute (apiKey : string) (args : jsval) : M ToolResult :=
  try_catch
    (let params := args in
     prompt ← lift (readStringParam params "prompt" true);
     n ← lift (get_prop params "num_images");
     let numImages := coalesce n (VNum 1) in
     wd ← lift (get_prop params "width");
     let width := coalesce wd (VNum 1024) in
     ht ← lift (get_prop params "height");
     let height := coalesce ht (VNum 1024) in
     style ← lift (readStringParam params "preset_style" false);
     let presetStyle := default "FASHION" style in
     let body := {| prompt := str_or_undef prompt;
                    num_images := numImages;
                    width := width;
                    height := height;
                    presetStyle := presetStyle |} in
     res ← fetch w {| method := POST;
                      url := Generations;
                      bearer := apiKey;
                      body := Some body;
                      signal_ms := withTimeout (DEFAULT_TIMEOUT_SECONDS * 1000) |};
     if negb (ok res) then
       detail ← lift (readResponseText res 4000);
       throw (Error ("Leonardo generation request failed (" +:+ pretty (status res)
                       +:+ "): " +:+ or_str detail (statusText res)))
     else
       data ← lift (json res);
       job ← lift (get_prop data "sdGenerationJob");
       generationId ← lift (get_prop_opt job "generationId");
       if negb (truthy generationId) then
         throw (Error "Leonardo: no generationId in response")
       else
         imageUrls ← pollForCompletion generationId apiKey 60;
         mret (jsonResult (Generated generationId imageUrls (length imageUrls))))
    (fun error => mret (jsonResult (Failed (error_text error) []))).

End Tool.

Arguments poll_cycle readResponseText w generationId apiKey : rename.
Arguments poll_loop readResponseText w trips generationId apiKey maxAttempts : rename.
Arguments pollForCompletion readResponseText w generationId apiKey timeoutSeconds
  : rename, simpl never.

(** ** The declared schema

    [Type.Object] of [Type.String] and [Type.Number] properties, with what
    each one declares: its description, and for a number its [minimum] and
    [maximum] when given. *)

Inductive TSchema :=
  | TString (description : string)
  | TNumber (description : string) (minimum maximum : option Q).

Record TProperty := {
  key : string;
  schema : TSchema;
  optional : bool;      (* wrapped in [Type.Optional] *)
}.

Definition LeonardoGenerateImageSchema : list TProperty := [
  {| key := "prompt";
     schema := TString "Image generation prompt. Be specific about style, mood, lighting, composition, and subject.";
     optional := false |};
  {| key := "num_images";
     schema := TNumber "Number of images to generate (1-4). Default: 1." (Some 1%Q) (Some 4%Q);
     optional := true |};
  {| key := "width";
     schema := TNumber "Image width in pixels (must be divisible by 8, max 1536). Default: 1024." None None;
     optional := true |};
  {| key := "height";
     schema := TNumber "Image height in pixels (must be divisible by 8, max 1536). Default: 1024." None None;
     optional := true |};
  {| key := "preset_style";
     schema := TString "Visual style preset. Options: FASHION, PHOTOGRAPHY, PORTRAIT, CINEMATIC, CREATIVE. Default: FASHION.";
     optional := true |}
].

(** A value against a property schema, the way a JSON-schema validator
    reads it: the type, and the bounds that are declared. *)
Definition check_value (t : TSchema) (v : jsval) : bool :=
  match t, v with
  | TString _, VStr _ => true
  | TNumber _ lo hi, VNum q =>
      match lo with Some l => Qle_bool l q | None => true end
      && match hi with Some h => Qle_bool q h | None => true end
  | _, _ => false
  end.

Definition check_property (fields : gmap string jsval) (p : TProperty) : bool :=
  match fields !! key p with
  | None | Some VUndef => optional p
  | Some v => check_value (schema p) v
  end.

Definition conforms (props : list TProperty) (args : jsval) : bool :=
  match args with
  | VObj fields => forallb (check_property fields) props
  | _ => false
  end.

(** The bounds of the data model: an image count that is an integer from 1
    to 4, a width and a height that are positive multiples of 8, at most
    1536. *)
Definition is_integer (q : Q) : bool := Qeq_bool q (inject_Z (Qfloor q)).

Definition count_in_bounds (v : jsval) : bool :=
  match v with
  | VNum q => is_integer q && Qle_bool 1 q && Qle_bool q 4
  | _ => false
  end.

Definition side_in_bounds (v : jsval) : bool :=
  match v with
  | VNum q =>
      is_integer q && Qle_bool 1 q && Qle_bool q 1536
      && (Qfloor q mod 8 =? 0)
  | _ => false
  end.

Definition within_bounds (b : GenerationBody) : bool :=
  count_in_bounds (num_images b) && side_in_bounds (width b) && side_in_bounds (height b).

(** ** Creating the tool *)

(** [typeof v === "object"] *)
Definition typeof_object (v : jsval) : bool :=
  match v with
  | VNull | VArr _ | VObj _ => true
  | _ => false
  end.

(** ["apiKey" in v], for a [v] that is an object or an array: an array
    has no property of that name. *)
Definition has_apiKey (v : jsval) : bool :=
  match v with
  | VObj fields => bool_decide (is_Some (fields !! "apiKey"))
  | _ => false
  end.

(** What [createLeonardoTool] returns when a key is found. *)
Record AgentTool (ToolResult : Type) := {
  label : string;
  name : string;
  description : string;
  parameters : list TProperty;
  tool_execute : string -> jsval -> M ToolResult;   (* execute(_toolCallId, args) *)
}.
Arguments label {ToolResult} _.
Arguments name {ToolResult} _.
Arguments description {ToolResult} _.
Arguments parameters {ToolResult} _.
Arguments tool_execute {ToolResult} _ _ _.

Section Creation.

Variable readStringParam : jsval -> string -> bool -> Result (option string).
Variable readResponseText : Response -> Z -> Result string.
Variable DEFAULT_TIMEOUT_SECONDS : Z.
Variable ToolResult : Type.
Variable jsonResult : payload -> ToolResult.
Variable typeErrorMessage : engine_fault -> string.
Variable w : World.
(** [String.prototype.trim], a builtin of the engine. *)
Variable trim : string -> string.

(** [v?.trim()]: only strings have a [trim] method. *)
Definition trim_opt (v : jsval) : Result (option string) :=
  match v with
  | VUndef | VNull => Ok None
  | VStr s => Ok (Some (trim s))
  | _ => Throw (TypeError (NotAFunction "trim"))
  end.

(** [process.env["LEONARDO_API_KEY"]?.trim() || undefined], for the value
    [env] of the variable. *)
Definition key_from_env (env : option string) : option string :=
  match env with
  | Some s => if String.eqb (trim s) "" then None else Some (trim s)
  | None => None
  end.

(** [resolveLeonardoApiKey(config)]; the names read with [get_prop]
    ([tools], [leonardo], [apiKey], and [config] below) are not inherited
    from a prototype either. *)
Definition resolveLeonardoApiKey (config : jsval) (env : option string)
    : Result (option string) :=
  match get_prop_opt config "tools" with
  | Throw e => Throw e
  | Ok tools =>
      match get_prop_opt tools "leonardo" with
      | Throw e => Throw e
      | Ok fromConfig =>
          if truthy fromConfig && typeof_object fromConfig && has_apiKey fromConfig then
            match get_prop fromConfig "apiKey" with
            | Throw e => Throw e
            | Ok apiKey =>
                match trim_opt apiKey with
                | Throw e => Throw e
                | Ok (Some key) =>
                    if String.eqb key "" then Ok (key_from_env env) else Ok (Some key)
                | Ok None => Ok (key_from_env env)
                end
            end
          else Ok (key_from_env env)
      end
  end.

(** [createLeonardoTool(options)]: [None] is [null]. *)
Definition createLeonardoTool (options : jsval) (env : option string)
    : Result (option (AgentTool ToolResult)) :=
  match get_prop_opt options "config" with
  | Throw e => Throw e
  | Ok config =>
      match resolveLeonardoApiKey config env with
      | Throw e => Throw e
      | Ok apiKey =>
          if negb (truthy (str_or_undef apiKey)) then Ok None
          else
          let apiKey := default "" apiKey in
          Ok (Some {| label := "Generate Image";
                      name := "generate_image";
                      description := "Generate reference images using Leonardo.ai. Use this to create mood board images, visual references for shoots, or creative concept images. Returns image URLs that can be sent to Telegram.";
                      parameters := LeonardoGenerateImageSchema;
                      tool_execute := fun _toolCallId args =>
                        execute readStringParam readResponseText DEFAULT_TIMEOUT_SECONDS
                          ToolResult jsonResult typeErrorMessage w apiKey args |})
      end
  end.

End Creation.

(** ** Instances of the imported helpers

    Simple implementations of the helpers the tool imports, to run the
    model on concrete inputs. *)

Definition plain_readStringParam (params : jsval) (k : string) (required : bool)
    : Result (option string) :=
  match get_prop params k with
  | Throw e => Throw e
  | Ok (VStr s) => Ok (Some s)
  | Ok _ => if required then Throw (Error (k +:+ " required")) else Ok None
  end.

Definition plain_readResponseText (res : Response) (maxBytes : Z) : Result string :=
  Ok (String.substring 0 (Z.to_nat maxBytes) (text res)).

Definition plain_typeErrorMessage (fault : engine_fault) : string :=
  match fault with
  | ReadOfNullish VNull prop => "Cannot read properties of null (reading '" +:+ prop +:+ "')"
  | ReadOfNullish _ prop => "Cannot read properties of undefined (reading '" +:+ prop +:+ "')"
  | NotAFunction prop => prop +:+ " is not a function"
  end.

(** A [trim] for strings of ASCII characters: it removes the spaces, tabs
    and line breaks at both ends. *)
Definition is_space (c : Ascii.ascii) : bool :=
  match Ascii.nat_of_ascii c with
  | 9%nat | 10%nat | 11%nat | 12%nat | 13%nat | 32%nat => true
  | _ => false
  end.

Fixpoint trim_start (s : string) : string :=
  match s with
  | String c rest => if is_space c then trim_start rest else s
  | EmptyString => EmptyString
  end.

Definition ascii_trim (s : string) : string :=
  String.rev (trim_start (String.rev (trim_start s))).

Definition run_execute (w : World) (apiKey : string) (args : jsval)
    : Result payload * list event :=
  execute plain_readStringParam plain_readResponseText 30 payload id
    plain_typeErrorMessage w apiKey args [].

(** ** Describing traces, requests and replies *)

Definition status_request (generationId : jsval) (apiKey : string) : Request :=
  {| method := GET;
     url := GenerationById generationId;
     bearer := apiKey;
     body := None;
     signal_ms := 15000 |}.

(** What one turn of the loop adds to the trace, and what [n] turns add. *)
Definition cycle (generationId : jsval) (apiKey : string) : list event :=
  [EvSleep 2000; EvFetch (status_request generationId apiKey)].

Fixpoint cycles (n : nat) (generationId : jsval) (apiKey : string) : list event :=
  match n with
  | O => []
  | S n' => cycle generationId apiKey ++ cycles n' generationId apiKey
  end.

(** What a turn makes of the reply to its status query. *)
Definition cycle_outcome (readResponseText : Response -> Z -> Result string)
    (reply : Result Response) : Result (option (list jsval)) :=
  fst (poll_cycle readResponseText (fun _ _ => reply) VUndef "" []).

(** The [generations_by_pk] object of a successful status reply. *)
Definition generation_of (reply : Result Response) : option (gmap string jsval) :=
  match reply with
  | Ok {| ok := true; json := Ok (VObj data) |} =>
      match data !! "generations_by_pk" with
      | Some (VObj generation) => Some generation
      | _ => None
      end
  | _ => None
  end.

Definition has_status (generation : gmap string jsval) (st : string) : bool :=
  match generation !! "status" with
  | Some (VStr s) => String.eqb s st
  | _ => false
  end.

(** The reply reports the job with status [st]. *)
Definition reports_status (reply : Result Response) (st : string) : bool :=
  match generation_of reply with
  | Some generation => has_status generation st
  | None => false
  end.

(** The reply reports the job as PENDING, or with any status that is
    neither COMPLETE nor FAILED (a missing one included). *)
Definition keeps_waiting (reply : Result Response) : bool :=
  match generation_of reply with
  | Some generation =>
      negb (has_status generation "FAILED") && negb (has_status generation "COMPLETE")
  | None => false
  end.

(** A list of image objects as the JSON array of a reply, the URL of an
    image object, and the URLs of a list that are usable. *)
Definition image_array (images : list (gmap string jsval)) : jsval :=
  VArr (VObj <$> images).

Definition url_of (image : gmap string jsval) : jsval :=
  default VUndef (image !! "url").

Definition usable_urls (images : list (gmap string jsval)) : list jsval :=
  filter (fun u => truthy u = true) (url_of <$> images).

(** A value of the arguments object with its default. *)
Definition supplied_or (fields : gmap string jsval) (k : string) (dflt : jsval) : jsval :=
  match fields !! k with
  | None | Some VUndef | Some VNull => dflt
  | Some v => v
  end.

Definition body_of (fields : gmap string jsval) (prompt style : option string)
    : GenerationBody :=
  {| prompt := match prompt with Some s => VStr s | None => VUndef end;
     num_images := supplied_or fields "num_images" (VNum 1);
     width := supplied_or fields "width" (VNum 1024);
     height := supplied_or fields "height" (VNum 1024);
     presetStyle := match style with Some s => s | None => "FASHION" end |}.

Definition submission_request (apiKey : string) (timeoutSeconds : Z)
    (b : GenerationBody) : Request :=
  {| method := POST;
     url := Generations;
     bearer := apiKey;
     body := Some b;
     signal_ms := timeoutSeconds * 1000 |}.

(** The job identifier of a successful submission reply, when it has one. *)
Definition job_id_of (reply : Result Response) : option jsval :=
  match reply with
  | Ok {| ok := true; json := Ok (VObj data) |} =>
      match data !! "sdGenerationJob" with
      | Some (VObj job) =>
          match job !! "generationId" with
          | Some v => if truthy v then Some v else None
          | None => None
          end
      | _ => None
      end
  | _ => None
  end.

(** The submission reply is a JSON object without [sdGenerationJob], or
    whose [sdGenerationJob] has no [generationId]. *)
Definition lacks_job_id (reply : Result Response) : bool :=
  match reply with
  | Ok {| ok := true; json := Ok (VObj data) |} =>
      match data !! "sdGenerationJob" with
      | None => true
      | Some (VObj job) =>
          match job !! "generationId" with
          | None => true
          | Some _ => false
          end
      | Some _ => false
      end
  | _ => false
  end.

(** [needle] occurs in [hay]. *)
Definition contains (needle hay : string) : Prop :=
  exists before after, hay = before +:+ needle +:+ after.

(** The property that [execute] checks the bounds of the data model before it
    submits: every submission in the trace carries a body within bounds. *)
Definition submits_only_within_bounds (tr : list event) : Prop :=
  forall req, EvFetch req ∈ tr -> method req = POST ->
    exists b, body req = Some b /\ within_bounds b = true.

(** The two shapes of a result: [{generationId, imageUrls, count}] with
    the number of URLs as count, and [{error, imageUrls: []}]. *)
Definition well_shaped (p : payload) : Prop :=
  match p with
  | Generated generationId imageUrls count =>
      truthy generationId = true /\ imageUrls <> [] /\ count = length imageUrls
  | Failed _ imageUrls => imageUrls = []
  end.

(** ** Sample services *)

Definition obj (l : list (string * jsval)) : jsval := VObj (list_to_map l).

Definition reply_json (data : jsval) : Result Response :=
  Ok {| ok := true; status := 200; statusText := "OK"; text := ""; json := Ok data |}.

Definition reply_http (code : Z) (reason payload_text : string) : Result Response :=
  Ok {| ok := false; status := code; statusText := reason; text := payload_text;
        json := Throw (Error "Unexpected token") |}.

Definition submitted (generationId : string) : Result Response :=
  reply_json (obj [("sdGenerationJob", obj [("generationId", VStr generationId)])]).

Definition generation_reply (st : string) (images : list (gmap string jsval))
    : Result Response :=
  reply_json (obj [("generations_by_pk",
                    obj [("status", VStr st); ("generated_images", image_array images)])]).

Definition image (id u : string) : gmap string jsval :=
  list_to_map [("id", VStr id); ("url", VStr u)].

(** A service that accepts the job and then answers the status queries
    from [script], and PENDING once the script is used up. *)
Definition scripted (script : list (Result Response)) : World :=
  fun n _ =>
    match n with
    | O => submitted "job-1"
    | S i => default (generation_reply "PENDING" []) (script !! i)
    end.

(** A status service alone, for runs of [pollForCompletion]. *)
Definition status_script (script : list (Result Response)) : World :=
  fun n _ => default (generation_reply "PENDING" []) (script !! n).

(** A service that rejects the submission. *)
Definition rejecting : World :=
  fun _ _ => reply_http 500 "Internal Server Error" "boom".

(** Sample arguments, images and job identifier. *)
Definition job1 : jsval := VStr "job-1".

Definition bare_fields : gmap string jsval :=
  list_to_map [("prompt", VStr "a cat")].

Definition explicit_fields : gmap string jsval :=
  list_to_map [("prompt", VStr "a cat"); ("num_images", VNum 2); ("width", VNum 512);
               ("height", VNum 768); ("preset_style", VStr "CINEMATIC")].

Definition odd_fields : gmap string jsval :=
  list_to_map [("prompt", VStr "a cat"); ("num_images", VNum 4);
               ("width", VNum 7); ("height", VNum 2000)].

Definition null_fields : gmap string jsval :=
  list_to_map [("prompt", VStr "a cat"); ("width", VNull); ("height", VNum 0)].

Definition hurried_fields : gmap string jsval :=
  list_to_map [("prompt", VStr "a cat"); ("timeoutSeconds", VNum 5)].

Definition abc_images : list (gmap string jsval) :=
  [image "1" "a"; image "2" ""; image "3" "b"].

Definition blank_images : list (gmap string jsval) :=
  [image "1" ""; image "2" ""].

Definition complete_generation (images : list (gmap string jsval)) : gmap string jsval :=
  list_to_map [("status", VStr "COMPLETE"); ("generated_images", image_array images)].

Definition bare_post : Request :=
  submission_request "key" 30 (body_of bare_fields (Some "a cat") None).

(** ** Describing configurations *)

(** The value of [tools.leonardo.apiKey] in a configuration whose [tools]
    and [tools.leonardo] are objects and that has the key. *)
Definition configured_key (config : jsval) : option jsval :=
  match config with
  | VObj c =>
      match c !! "tools" with
      | Some (VObj tools) =>
          match tools !! "leonardo" with
          | Some (VObj leonardo) => leonardo !! "apiKey"
          | _ => None
          end
      | _ => None
      end
  | _ => None
  end.

(** A configuration with the given value as [tools.leonardo.apiKey], and
    one with other tools only. *)
Definition config_with_key (apiKey : jsval) : jsval :=
  obj [("tools", obj [("leonardo", obj [("apiKey", apiKey)])])].

Definition config_without_leonardo : jsval :=
  obj [("tools", obj [("web", obj [("enabled", VBool true)])])].

(** Every request of a trace carries the key. *)
Definition authorized_by (apiKey : string) (tr : list event) : Prop :=
  forall req, EvFetch req ∈ tr -> bearer req = apiKey.

(** A service that never answers: every [fetch] is rejected. *)
Definition unreachable : World :=
  fun _ _ => Throw (Error "fetch failed").

(** * Properties *)

(** ** Counting over traces *)

Lemma count_fetches_app (a b : list event) :
  count_fetches (a ++ b) = (count_fetches a + count_fetches b)%nat.
Proof. unfold count_fetches. by rewrite filter_app, length_app. Qed.

Lemma status_queries_app (a b : list event) :
  status_queries (a ++ b) = (status_queries a + status_queries b)%nat.
Proof. unfold status_queries. by rewrite filter_app, length_app. Qed.

Lemma submissions_app (a b : list event) :
  submissions (a ++ b) = (submissions a + submissions b)%nat.
Proof. unfold submissions. by rewrite filter_app, length_app. Qed.

Lemma slept_ms_app (a b : list event) : slept_ms (a ++ b) = slept_ms a + slept_ms b.
Proof.
  unfold slept_ms. induction a as [|e a IH]; simpl; [done|].
  destruct e; rewrite ?IH; lia.
Qed.

Lemma cycles_S n id key : cycles (S n) id key = cycle id key ++ cycles n id key.
Proof. done. Qed.

Lemma cycles_snoc n id key : cycles (S n) id key = cycles n id key ++ cycle id key.
Proof.
  induction n as [|n IH]; [done|].
  rewrite (cycles_S (S n)), IH at 1. by rewrite app_assoc.
Qed.

Lemma cycles_add n k id key : cycles (n + k) id key = cycles n id key ++ cycles k id key.
Proof.
  induction n as [|n IH]; [done|].
  change (S n + k)%nat with (S (n + k)). by rewrite !cycles_S, IH, app_assoc.
Qed.

Lemma count_fetches_cycles n id key : count_fetches (cycles n id key) = n.
Proof.
  induction n as [|n IH]; [done|]. rewrite cycles_S, count_fetches_app, IH. done.
Qed.

Lemma status_queries_cycles n id key : status_queries (cycles n id key) = n.
Proof.
  induction n as [|n IH]; [done|]. rewrite cycles_S, status_queries_app, IH. done.
Qed.

Lemma submissions_cycles n id key : submissions (cycles n id key) = 0%nat.
Proof.
  induction n as [|n IH]; [done|]. rewrite cycles_S, submissions_app, IH. done.
Qed.

Lemma slept_ms_cycles n id key : slept_ms (cycles n id key) = 2000 * Z.of_nat n.
Proof.
  induction n as [|n IH]; [done|].
  rewrite cycles_S, slept_ms_app, IH. unfold cycle, slept_ms; simpl. lia.
Qed.

(** In a run of turns every fetch is a status query that comes right after
    a sleep of the poll interval. *)
Lemma cycles_lookup_fetch n id key (i : nat) req :
  cycles n id key !! i = Some (EvFetch req) ->
  req = status_request id key
  /\ exists j : nat, i = S j /\ cycles n id key !! j = Some (EvSleep 2000).
Proof.
  revert i. induction n as [|n IH]; intros i H; [done|].
  change (cycles (S n) id key)
    with (EvSleep 2000 :: EvFetch (status_request id key) :: cycles n id key) in *.
  destruct i as [|[|i]]; simpl in H.
  - done.
  - split; [by inversion H|]. by exists 0%nat.
  - destruct (IH i H) as (-> & j & -> & Hj). split; [done|]. by exists (S (S j)).
Qed.

Lemma loop_trips_enter (a m : Z) : a < m -> loop_trips a m = S (loop_trips (a + 1) m).
Proof. unfold loop_trips. lia. Qed.

Lemma loop_trips_exit (a m : Z) : ~ a < m -> loop_trips a m = 0%nat.
Proof. unfold loop_trips. lia. Qed.

Lemma maxAttempts_of_le (t : Z) : maxAttempts_of t <= 30.
Proof. unfold maxAttempts_of, POLL_MAX_ATTEMPTS. lia. Qed.

Lemma loop_trips_le (t : Z) : (loop_trips 0 (maxAttempts_of t) <= 30)%nat.
Proof. pose proof (maxAttempts_of_le t). unfold loop_trips. lia. Qed.

(** ** One turn of the loop *)

Section Poller.

Variable readResponseText : Response -> Z -> Result string.
Variable w : World.
Variables (generationId : jsval) (apiKey : string).

Lemma poll_cycle_run (tr : list event) :
  poll_cycle readResponseText w generationId apiKey tr
  = (cycle_outcome readResponseText
       (w (count_fetches tr) (status_request generationId apiKey)),
     tr ++ cycle generationId apiKey).
Proof.
  unfold cycle_outcome, poll_cycle, sleep, fetch, lift, throw.
  unfold mbind, M_bind, bind, mret, M_ret, ret; simpl.
  rewrite count_fetches_app, Nat.add_0_r, <- app_assoc; simpl.
  unfold withTimeout, status_request.
  destruct (w (count_fetches tr) _) as [res|e]; simpl; [|done].
  repeat (case_match; simpl; try done).
Qed.

Lemma poll_loop_S (n : nat) (m : Z) (tr : list event) :
  poll_loop readResponseText w (S n) generationId apiKey m tr
  = match cycle_outcome readResponseText
            (w (count_fetches tr) (status_request generationId apiKey)) with
    | Ok (Some urls) => (Ok urls, tr ++ cycle generationId apiKey)
    | Ok None =>
        poll_loop readResponseText w n generationId apiKey m
          (tr ++ cycle generationId apiKey)
    | Throw e => (Throw e, tr ++ cycle generationId apiKey)
    end.
Proof.
  change (poll_loop readResponseText w (S n) generationId apiKey m tr)
    with (bind (poll_cycle readResponseText w generationId apiKey)
            (fun r => match r with
                      | Some urls => mret urls
                      | None => poll_loop readResponseText w n generationId apiKey m
                      end) tr).
  unfold bind. rewrite poll_cycle_run.
  by destruct (cycle_outcome _ _) as [[urls|]|e].
Qed.

End Poller.

(** ** What a turn makes of the replies *)

Lemma strict_eq_status (g : gmap string jsval) (st : string) :
  strict_eq_str (default VUndef (g !! "status")) st = has_status g st.
Proof. unfold has_status. by destruct (g !! "status") as [[]|]. Qed.

Lemma has_status_exclusive (g : gmap string jsval) (a b : string) :
  a <> b -> has_status g a = true -> has_status g b = false.
Proof.
  unfold has_status. destruct (g !! "status") as [[]|]; try done.
  intros Hab Ha%String.eqb_eq. subst. by apply String.eqb_neq.
Qed.

Lemma map_url_image_array (images : list (gmap string jsval)) :
  map_url (image_array images) = Ok (url_of <$> images).
Proof.
  unfold image_array, map_url.
  induction images as [|image rest IH]; [done|].
  rewrite !fmap_cons. cbn [map_result get_prop]. by rewrite IH.
Qed.

Lemma generation_of_Some (reply : Result Response) (g : gmap string jsval) :
  generation_of reply = Some g ->
  exists res data, reply = Ok res /\ ok res = true /\ json res = Ok (VObj data)
                   /\ data !! "generations_by_pk" = Some (VObj g).
Proof.
  unfold generation_of. intros H.
  destruct reply as [[[] ? ? ? [[]|]]|]; try done.
  destruct (_ !! "generations_by_pk") as [[]|] eqn:E; try done.
  inversion H; subst. by eexists _, _.
Qed.

Section Outcomes.

Variable readResponseText : Response -> Z -> Result string.

Lemma cycle_outcome_generation (reply : Result Response) (g : gmap string jsval) :
  generation_of reply = Some g ->
  cycle_outcome readResponseText reply
  = if has_status g "FAILED" then Throw (Error "Leonardo generation failed")
    else if has_status g "COMPLETE" then
      match map_url (coalesce (default VUndef (g !! "generated_images")) (VArr [])) with
      | Ok mapped =>
          match filter (fun u => truthy u = true) mapped with
          | [] => Throw (Error "Leonardo generation complete but no image URLs returned")
          | urls => Ok (Some urls)
          end
      | Throw e => Throw e
      end
    else Ok None.
Proof.
  intros (res & data & -> & Hok & Hjson & Hgen)%generation_of_Some.
  unfold cycle_outcome, poll_cycle, sleep, fetch, lift, throw.
  unfold mbind, M_bind, bind, mret, M_ret, ret; simpl.
  rewrite Hok, Hjson; simpl. rewrite Hgen; simpl.
  rewrite !strict_eq_status.
  destruct (has_status g "FAILED"); [done|].
  destruct (has_status g "COMPLETE"); [|done].
  destruct (map_url _) as [mapped|e]; [|done].
  by destruct (filter _ mapped).
Qed.

Lemma cycle_outcome_waiting (reply : Result Response) :
  keeps_waiting reply = true -> cycle_outcome readResponseText reply = Ok None.
Proof.
  unfold keeps_waiting. destruct (generation_of reply) as [g|] eqn:Hg; [|done].
  intros [Hf Hc]%andb_prop. rewrite (cycle_outcome_generation _ g Hg).
  apply negb_true_iff in Hf, Hc. by rewrite Hf, Hc.
Qed.

Lemma cycle_outcome_failed (reply : Result Response) :
  reports_status reply "FAILED" = true ->
  cycle_outcome readResponseText reply = Throw (Error "Leonardo generation failed").
Proof.
  unfold reports_status. destruct (generation_of reply) as [g|] eqn:Hg; [|done].
  intros Hf. by rewrite (cycle_outcome_generation _ g Hg), Hf.
Qed.

Lemma cycle_outcome_complete (reply : Result Response) (g : gmap string jsval)
    (images : list (gmap string jsval)) :
  generation_of reply = Some g ->
  has_status g "COMPLETE" = true ->
  g !! "generated_images" = Some (image_array images) ->
  cycle_outcome readResponseText reply
  = match usable_urls images with
    | [] => Throw (Error "Leonardo generation complete but no image URLs returned")
    | urls => Ok (Some urls)
    end.
Proof.
  intros Hg Hc Himg. rewrite (cycle_outcome_generation _ g Hg), Hc.
  rewrite (has_status_exclusive g "COMPLETE" "FAILED") by done.
  rewrite Himg. simpl default.
  change (coalesce (image_array images) (VArr [])) with (image_array images).
  by rewrite map_url_image_array.
Qed.

Lemma cycle_outcome_complete_missing (reply : Result Response) (g : gmap string jsval) :
  generation_of reply = Some g ->
  has_status g "COMPLETE" = true ->
  g !! "generated_images" = None ->
  cycle_outcome readResponseText reply
  = Throw (Error "Leonardo generation complete but no image URLs returned").
Proof.
  intros Hg Hc Himg. rewrite (cycle_outcome_generation _ g Hg), Hc.
  rewrite (has_status_exclusive g "COMPLETE" "FAILED") by done.
  by rewrite Himg.
Qed.

(** A turn never returns an empty list. *)
Lemma cycle_outcome_nonempty (reply : Result Response) (urls : list jsval) :
  cycle_outcome readResponseText reply = Ok (Some urls) -> urls <> [].
Proof.
  unfold cycle_outcome, poll_cycle, sleep, fetch, lift, throw.
  unfold mbind, M_bind, bind, mret, M_ret, ret; simpl.
  destruct reply as [res|e]; simpl; [|done].
  repeat (case_match; simpl; try done).
  intros [= <-] Hnil. rewrite Hnil in *. done.
Qed.

End Outcomes.

(** ** The loop *)

Section Loop.

Variable readResponseText : Response -> Z -> Result string.
Variable w : World.
Variables (generationId : jsval) (apiKey : string).

(** While the replies keep the poller waiting, the loop goes on. *)
Lemma poll_loop_waiting (k n : nat) (m : Z) (tr : list event) :
  (forall i : nat, (i < k)%nat ->
     keeps_waiting (w (count_fetches tr + i)%nat (status_request generationId apiKey))
     = true) ->
  poll_loop readResponseText w (k + n) generationId apiKey m tr
  = poll_loop readResponseText w n generationId apiKey m
      (tr ++ cycles k generationId apiKey).
Proof.
  revert tr. induction k as [|k IH]; intros tr Hwait.
  - by rewrite app_nil_r.
  - change (S k + n)%nat with (S (k + n)). rewrite poll_loop_S.
    rewrite cycle_outcome_waiting.
    2:{ specialize (Hwait 0%nat). rewrite Nat.add_0_r in Hwait. apply Hwait. lia. }
    rewrite IH.
    + by rewrite cycles_S, app_assoc.
    + intros i Hi. rewrite count_fetches_app.
      replace (count_fetches tr + count_fetches (cycle generationId apiKey) + i)%nat
        with (count_fetches tr + S i)%nat by (unfold cycle, count_fetches; simpl; lia).
      apply Hwait. lia.
Qed.

(** The loop adds whole turns to the trace: at most as many as it may
    run, and at least one when it may run at all. *)
Lemma poll_loop_trace (n : nat) (m : Z) (tr : list event) :
  exists k : nat,
    (k <= n)%nat /\ ((0 < n)%nat -> (0 < k)%nat)
    /\ snd (poll_loop readResponseText w n generationId apiKey m tr)
       = tr ++ cycles k generationId apiKey.
Proof.
  revert tr. induction n as [|n IH]; intros tr.
  - exists 0%nat. simpl. rewrite app_nil_r. split; [lia|]. split; [lia|done].
  - rewrite poll_loop_S.
    destruct (cycle_outcome _ _) as [[urls|]|e].
    + exists 1%nat. split; [lia|]. split; [lia|done].
    + destruct (IH (tr ++ cycle generationId apiKey)) as (k & Hk & _ & Htr).
      exists (S k). rewrite Htr, cycles_S, app_assoc. split; [lia|]. split; [lia|done].
    + exists 1%nat. split; [lia|]. split; [lia|done].
Qed.

Lemma poll_loop_nonempty (n : nat) (m : Z) (tr tr' : list event) (urls : list jsval) :
  poll_loop readResponseText w n generationId apiKey m tr = (Ok urls, tr') ->
  urls <> [].
Proof.
  revert tr. induction n as [|n IH]; intros tr; [done|].
  rewrite poll_loop_S.
  destruct (cycle_outcome _ _) as [[found|]|e] eqn:E.
  - intros [= <- _]. by eapply cycle_outcome_nonempty.
  - apply IH.
  - done.
Qed.

(** The loop up to the first reply that does not keep it waiting. *)
Lemma poll_loop_decided (k : nat) (t : Z) (tr : list event) :
  Z.of_nat k < maxAttempts_of t ->
  (forall i : nat, (i < k)%nat ->
     keeps_waiting (w (count_fetches tr + i)%nat (status_request generationId apiKey))
     = true) ->
  pollForCompletion readResponseText w generationId apiKey t tr
  = match cycle_outcome readResponseText
            (w (count_fetches tr + k)%nat (status_request generationId apiKey)) with
    | Ok (Some urls) => (Ok urls, tr ++ cycles (S k) generationId apiKey)
    | Ok None =>
        poll_loop readResponseText w (loop_trips 0 (maxAttempts_of t) - S k)
          generationId apiKey (maxAttempts_of t)
          (tr ++ cycles (S k) generationId apiKey)
    | Throw e => (Throw e, tr ++ cycles (S k) generationId apiKey)
    end.
Proof.
  intros Hk Hwait. unfold pollForCompletion.
  replace (loop_trips 0 (maxAttempts_of t))
    with (k + S (loop_trips 0 (maxAttempts_of t) - S k))%nat
    by (unfold loop_trips; lia).
  rewrite poll_loop_waiting by done.
  rewrite poll_loop_S, count_fetches_app, count_fetches_cycles.
  rewrite cycles_snoc, app_assoc.
  replace (k + S (loop_trips 0 (maxAttempts_of t) - S k) - S k)%nat
    with (loop_trips 0 (maxAttempts_of t) - S k)%nat by lia.
  done.
Qed.

End Loop.

(** ** The poller *)

(** C1. The attempt budget is computed once, before the loop, as
    min(30, floor(timeoutSeconds * 1000 / 2000)).  When every status
    query within the budget reports PENDING, or any status other than
    COMPLETE and FAILED, the poller makes exactly that many status
    queries and then throws the timeout error, whose message states the
    seconds slept: twice the budget.  The timeout is a number of seconds
    that is not negative. *)
Theorem poll_pending_until_timeout
    (readResponseText : Response -> Z -> Result string) (w : World)
    (generationId : jsval) (apiKey : string) (timeoutSeconds : Z) (tr : list event) :
  0 <= timeoutSeconds ->
  (forall i : nat, Z.of_nat i < maxAttempts_of timeoutSeconds ->
     keeps_waiting (w (count_fetches tr + i)%nat (status_request generationId apiKey))
     = true) ->
  let budget := Z.min 30 (timeoutSeconds * 1000 / 2000) in
  maxAttempts_of timeoutSeconds = budget
  /\ exists polled : list event,
       pollForCompletion readResponseText w generationId apiKey timeoutSeconds tr
       = (Throw (Error ("Leonardo generation timed out after "
                          +:+ pretty (budget * 2) +:+ " seconds")),
          tr ++ polled)
       /\ Z.of_nat (status_queries polled) = budget
       /\ slept_ms polled = budget * 2 * 1000.
Proof.
  intros Ht Hwait budget. split; [done|].
  assert (0 <= timeoutSeconds * 1000 / 2000) by (apply Z.div_pos; lia).
  assert (0 <= budget) as Hb by (unfold budget; lia).
  exists (cycles (Z.to_nat budget) generationId apiKey).
  split; [|split].
  - unfold pollForCompletion, loop_trips.
    change (maxAttempts_of timeoutSeconds) with budget in *.
    replace (Z.to_nat (budget - 0)) with (Z.to_nat budget + 0)%nat by lia.
    rewrite poll_loop_waiting; [done|].
    intros i Hi. apply Hwait. lia.
  - rewrite status_queries_cycles. lia.
  - rewrite slept_ms_cycles. lia.
Qed.

Lemma poll_pending_until_timeout_witness :
  0 <= 10
  /\ (forall i : nat, Z.of_nat i < maxAttempts_of 10 ->
        keeps_waiting (status_script [] (count_fetches [] + i)%nat (status_request job1 "key"))
        = true)
  /\ maxAttempts_of 10 = 5
  /\ exists polled : list event,
       pollForCompletion plain_readResponseText (status_script []) job1 "key" 10 []
       = (Throw (Error "Leonardo generation timed out after 10 seconds"), [] ++ polled)
       /\ Z.of_nat (status_queries polled) = 5
       /\ slept_ms polled = 10000.
Proof.
  assert (forall i : nat, Z.of_nat i < maxAttempts_of 10 ->
            keeps_waiting
              (status_script [] (count_fetches [] + i)%nat (status_request job1 "key"))
            = true) as Hwait
    by (intros i _; reflexivity).
  split; [lia|]. split; [exact Hwait|].
  apply (poll_pending_until_timeout plain_readResponseText (status_script [])
           job1 "key" 10 []); [lia | exact Hwait].
Defined.

(** With a negative timeout the loop is not entered: no status query is
    made and the message states the negative product. *)
Remark poll_negative_timeout
    (readResponseText : Response -> Z -> Result string) (w : World)
    (generationId : jsval) (apiKey : string) (timeoutSeconds : Z) (tr : list event) :
  timeoutSeconds < 0 ->
  pollForCompletion readResponseText w generationId apiKey timeoutSeconds tr
  = (Throw (Error (timeout_message (maxAttempts_of timeoutSeconds))), tr).
Proof.
  intros Ht. unfold pollForCompletion.
  rewrite loop_trips_exit; [done|].
  unfold maxAttempts_of, POLL_INTERVAL_MS, POLL_MAX_ATTEMPTS.
  assert (timeoutSeconds * 1000 / 2000 < 0) by (apply Z.div_lt_upper_bound; lia).
  lia.
Qed.

(** C3. When a status query reports FAILED, after any number of queries
    that kept the poller waiting and whatever remains of the budget, the
    poller throws the failure at once: the trace ends with that query.
    The same holds turn by turn: a turn whose query reports FAILED is the
    last one, however many turns are left. *)
Theorem poll_failed_stops_at_once
    (readResponseText : Response -> Z -> Result string) (w : World)
    (generationId : jsval) (apiKey : string) (timeoutSeconds : Z) (tr : list event)
    (k : nat) :
  Z.of_nat k < maxAttempts_of timeoutSeconds ->
  (forall i : nat, (i < k)%nat ->
     keeps_waiting (w (count_fetches tr + i)%nat (status_request generationId apiKey))
     = true) ->
  reports_status (w (count_fetches tr + k)%nat (status_request generationId apiKey))
    "FAILED" = true ->
  pollForCompletion readResponseText w generationId apiKey timeoutSeconds tr
  = (Throw (Error "Leonardo generation failed"),
     tr ++ cycles (S k) generationId apiKey)
  /\ status_queries (cycles (S k) generationId apiKey) = S k
  /\ (forall (left : nat) (m : Z) (tr0 : list event),
        reports_status (w (count_fetches tr0) (status_request generationId apiKey))
          "FAILED" = true ->
        poll_loop readResponseText w (S left) generationId apiKey m tr0
        = (Throw (Error "Leonardo generation failed"), tr0 ++ cycle generationId apiKey)).
Proof.
  intros Hk Hwait Hfail. split; [|split; [apply status_queries_cycles|]].
  - rewrite (poll_loop_decided _ _ _ _ k) by done.
    by rewrite cycle_outcome_failed.
  - intros left m tr0 Hfail0. rewrite poll_loop_S.
    by rewrite cycle_outcome_failed.
Qed.

Lemma poll_failed_stops_at_once_witness :
  1 < maxAttempts_of 60
  /\ (forall i : nat, (i < 1)%nat ->
        keeps_waiting
          (status_script [generation_reply "PENDING" []; generation_reply "FAILED" []]
             (count_fetches [] + i)%nat (status_request job1 "key"))
        = true)
  /\ reports_status
       (status_script [generation_reply "PENDING" []; generation_reply "FAILED" []]
          (count_fetches [] + 1)%nat (status_request job1 "key"))
       "FAILED" = true
  /\ pollForCompletion plain_readResponseText
       (status_script [generation_reply "PENDING" []; generation_reply "FAILED" []])
       job1 "key" 60 []
     = (Throw (Error "Leonardo generation failed"), cycles 2 job1 "key")
  /\ status_queries (cycles 2 job1 "key") = 2%nat.
Proof.
  assert (forall i : nat, (i < 1)%nat ->
            keeps_waiting
              (status_script [generation_reply "PENDING" []; generation_reply "FAILED" []]
                 (count_fetches [] + i)%nat (status_request job1 "key"))
            = true) as Hwait.
  { intros [|i] Hi; [reflexivity | lia]. }
  split; [reflexivity|]. split; [exact Hwait|]. split; [reflexivity|].
  destruct (poll_failed_stops_at_once plain_readResponseText
              (status_script [generation_reply "PENDING" []; generation_reply "FAILED" []])
              job1 "key" 60 [] 1) as (Hrun & Hqueries & _);
    [reflexivity | exact Hwait | reflexivity |].
  split; [exact Hrun | exact Hqueries].
Defined.

(** C4. When a status query reports COMPLETE with a list of images, the
    poller returns the URLs of the images in their order, without the
    falsy ones (provided one is left): for the images with URLs "a", ""
    and "b" it returns exactly "a", "b". *)
Theorem poll_complete_returns_usable_urls
    (readResponseText : Response -> Z -> Result string) (w : World)
    (generationId : jsval) (apiKey : string) (timeoutSeconds : Z) (tr : list event)
    (k : nat) (generation : gmap string jsval) (images : list (gmap string jsval)) :
  Z.of_nat k < maxAttempts_of timeoutSeconds ->
  (forall i : nat, (i < k)%nat ->
     keeps_waiting (w (count_fetches tr + i)%nat (status_request generationId apiKey))
     = true) ->
  generation_of (w (count_fetches tr + k)%nat (status_request generationId apiKey))
  = Some generation ->
  has_status generation "COMPLETE" = true ->
  generation !! "generated_images" = Some (image_array images) ->
  usable_urls images <> [] ->
  exists urls : list jsval,
    pollForCompletion readResponseText w generationId apiKey timeoutSeconds tr
    = (Ok urls, tr ++ cycles (S k) generationId apiKey)
    /\ urls = filter (fun u => truthy u = true) (url_of <$> images)
    /\ urls `sublist_of` (url_of <$> images)
    /\ (forall u, u ∈ urls <-> truthy u = true /\ u ∈ (url_of <$> images)).
Proof.
  intros Hk Hwait Hgen Hst Himg Hsome.
  exists (usable_urls images). split; [|split; [done|split]].
  - rewrite (poll_loop_decided _ _ _ _ k) by done.
    rewrite (cycle_outcome_complete _ _ generation images) by done.
    by destruct (usable_urls images).
  - apply sublist_filter.
  - intros u. unfold usable_urls. by rewrite list_elem_of_filter.
Qed.

Lemma poll_complete_returns_usable_urls_witness :
  1 < maxAttempts_of 60
  /\ (forall i : nat, (i < 1)%nat ->
        keeps_waiting
          (status_script [generation_reply "PENDING" [];
                          generation_reply "COMPLETE" abc_images]
             (count_fetches [] + i)%nat (status_request job1 "key"))
        = true)
  /\ generation_of
       (status_script [generation_reply "PENDING" [];
                       generation_reply "COMPLETE" abc_images]
          (count_fetches [] + 1)%nat (status_request job1 "key"))
     = Some (complete_generation abc_images)
  /\ has_status (complete_generation abc_images) "COMPLETE" = true
  /\ complete_generation abc_images !! "generated_images" = Some (image_array abc_images)
  /\ usable_urls abc_images = [VStr "a"; VStr "b"]
  /\ pollForCompletion plain_readResponseText
       (status_script [generation_reply "PENDING" [];
                       generation_reply "COMPLETE" abc_images])
       job1 "key" 60 []
     = (Ok [VStr "a"; VStr "b"], cycles 2 job1 "key").
Proof.
  assert (forall i : nat, (i < 1)%nat ->
            keeps_waiting
              (status_script [generation_reply "PENDING" [];
                              generation_reply "COMPLETE" abc_images]
                 (count_fetches [] + i)%nat (status_request job1 "key"))
            = true) as Hwait.
  { intros [|i] Hi; [reflexivity | lia]. }
  split; [reflexivity|]. split; [exact Hwait|]. split; [reflexivity|].
  split; [reflexivity|]. split; [reflexivity|]. split; [reflexivity|].
  destruct (poll_complete_returns_usable_urls plain_readResponseText
              (status_script [generation_reply "PENDING" [];
                              generation_reply "COMPLETE" abc_images])
              job1 "key" 60 [] 1 (complete_generation abc_images) abc_images)
    as (urls & Hrun & Hurls & _); [reflexivity | exact Hwait | reflexivity
                                  | reflexivity | reflexivity | discriminate |].
  rewrite Hrun, Hurls. reflexivity.
Defined.

(** C5. When a status query reports COMPLETE with no image list, with an
    empty one, or with images whose URLs are all falsy, the poller throws
    the error that no image URLs were returned; and whenever the poller
    returns, the list it returns is not empty. *)
Theorem poll_complete_without_urls_fails
    (readResponseText : Response -> Z -> Result string) (w : World)
    (generationId : jsval) (apiKey : string) (timeoutSeconds : Z) (tr : list event) :
  (forall (k : nat) (generation : gmap string jsval),
     Z.of_nat k < maxAttempts_of timeoutSeconds ->
     (forall i : nat, (i < k)%nat ->
        keeps_waiting (w (count_fetches tr + i)%nat (status_request generationId apiKey))
        = true) ->
     generation_of (w (count_fetches tr + k)%nat (status_request generationId apiKey))
     = Some generation ->
     has_status generation "COMPLETE" = true ->
     (generation !! "generated_images" = None
      \/ exists images : list (gmap string jsval),
           generation !! "generated_images" = Some (image_array images)
           /\ forallb (fun im => negb (truthy (url_of im))) images = true) ->
     pollForCompletion readResponseText w generationId apiKey timeoutSeconds tr
     = (Throw (Error "Leonardo generation complete but no image URLs returned"),
        tr ++ cycles (S k) generationId apiKey))
  /\ (forall (urls : list jsval) (tr' : list event),
        pollForCompletion readResponseText w generationId apiKey timeoutSeconds tr
        = (Ok urls, tr') ->
        urls <> []).
Proof.
  split.
  - intros k generation Hk Hwait Hgen Hst Himg.
    rewrite (poll_loop_decided _ _ _ _ k) by done.
    destruct Himg as [Hnone | (images & Himg & Hall)].
    + by rewrite (cycle_outcome_complete_missing _ _ generation).
    + rewrite (cycle_outcome_complete _ _ generation images) by done.
      replace (usable_urls images) with (@nil jsval); [done|].
      unfold usable_urls. clear Himg.
      induction images as [|im rest IH]; [done|].
      simpl in Hall. apply andb_prop in Hall as [Him Hrest].
      rewrite fmap_cons, filter_cons_False; [by apply IH|].
      apply negb_true_iff in Him. by rewrite Him.
  - intros urls tr' Hrun. unfold pollForCompletion in Hrun.
    by eapply poll_loop_nonempty.
Qed.

Lemma poll_complete_without_urls_fails_witness :
  0 < maxAttempts_of 60
  /\ generation_of
       (status_script [generation_reply "COMPLETE" blank_images]
          (count_fetches [] + 0)%nat (status_request job1 "key"))
     = Some (complete_generation blank_images)
  /\ has_status (complete_generation blank_images) "COMPLETE" = true
  /\ complete_generation blank_images !! "generated_images"
     = Some (image_array blank_images)
  /\ forallb (fun im => negb (truthy (url_of im))) blank_images = true
  /\ pollForCompletion plain_readResponseText
       (status_script [generation_reply "COMPLETE" blank_images]) job1 "key" 60 []
     = (Throw (Error "Leonardo generation complete but no image URLs returned"),
        cycles 1 job1 "key").
Proof.
  split; [reflexivity|]. split; [reflexivity|]. split; [reflexivity|].
  split; [reflexivity|]. split; [reflexivity|].
  apply (proj1 (poll_complete_without_urls_fails plain_readResponseText
                  (status_script [generation_reply "COMPLETE" blank_images])
                  job1 "key" 60 [])
           0%nat (complete_generation blank_images));
    [reflexivity | intros i Hi; lia | reflexivity | reflexivity |].
  right. exists blank_images. split; reflexivity.
Defined.

(** ** The tool *)

Section Execute.

Variable readStringParam : jsval -> string -> bool -> Result (option string).
Variable readResponseText : Response -> Z -> Result string.
Variable DEFAULT_TIMEOUT_SECONDS : Z.
Variable ToolResult : Type.
Variable jsonResult : payload -> ToolResult.
Variable typeErrorMessage : engine_fault -> string.
Variable w : World.

Ltac run_execute_steps :=
  unfold execute, try_catch, lift, throw, fetch;
  unfold mbind, M_bind, bind, mret, M_ret, ret; simpl.

Ltac next_case :=
  match goal with
  | |- context [match ?x with _ => _ end] =>
      lazymatch x with
      | context [pollForCompletion] => fail
      | context [match _ with _ => _ end] => fail
      | _ => destruct x eqn:?; simpl
      end
  end.

(** Every run of [execute] ends with a well-shaped result; it makes at
    most one submission and at most 30 status queries, and sleeps at most
    60000 ms. *)
Lemma execute_outcome (apiKey : string) (args : jsval) (tr : list event) :
  exists (p : payload) (tr' : list event),
    execute readStringParam readResponseText DEFAULT_TIMEOUT_SECONDS ToolResult
      jsonResult typeErrorMessage w apiKey args tr
    = (Ok (jsonResult p), tr')
    /\ well_shaped p
    /\ (submissions tr' <= submissions tr + 1)%nat
    /\ (status_queries tr' <= status_queries tr + 30)%nat
    /\ slept_ms tr' <= slept_ms tr + 60000.
Proof.
  run_execute_steps.
  repeat next_case;
    try (eexists _, _; split; [reflexivity|];
         rewrite ?submissions_app, ?status_queries_app, ?slept_ms_app;
         unfold submissions, status_queries, slept_ms; simpl;
         repeat split; lia).
  match goal with
  | |- context [pollForCompletion ?r ?w ?g ?k ?t ?tr0] =>
      destruct (pollForCompletion r w g k t tr0) as [[urls|e] tr'] eqn:Hrun;
      pose proof (poll_loop_trace r w g k (loop_trips 0 (maxAttempts_of t))
                    (maxAttempts_of t) tr0) as (n & Hn & _ & Htr);
      pose proof (loop_trips_le t);
      unfold pollForCompletion in Hrun; rewrite Hrun in Htr; simpl in Htr; subst tr'
  end.
  - eexists _, _; split; [reflexivity|].
    split; [|rewrite !submissions_app, !status_queries_app, !slept_ms_app,
               submissions_cycles, status_queries_cycles, slept_ms_cycles;
             unfold submissions, status_queries, slept_ms; simpl; repeat split; lia].
    simpl. split; [by apply negb_false_iff|]. split; [|done].
    by eapply poll_loop_nonempty.
  - eexists _, _; split; [reflexivity|].
    rewrite !submissions_app, !status_queries_app, !slept_ms_app,
      submissions_cycles, status_queries_cycles, slept_ms_cycles.
    unfold submissions, status_queries, slept_ms; simpl; repeat split; lia.
Qed.

End Execute.

Lemma coalesce_supplied (fields : gmap string jsval) (k : string) (dflt : jsval) :
  coalesce (default VUndef (fields !! k)) dflt = supplied_or fields k dflt.
Proof. unfold supplied_or. by destruct (fields !! k) as [[]|]. Qed.

Lemma supplied_or_value (fields : gmap string jsval) (k : string) (dflt : jsval) :
  supplied_or fields k dflt
  = match fields !! k with
    | Some v => if nullish v then dflt else v
    | None => dflt
    end.
Proof. unfold supplied_or. by destruct (fields !! k) as [[]|]. Qed.

Section Submission.

Variable readStringParam : jsval -> string -> bool -> Result (option string).
Variable readResponseText : Response -> Z -> Result string.
Variable DEFAULT_TIMEOUT_SECONDS : Z.
Variable ToolResult : Type.
Variable jsonResult : payload -> ToolResult.
Variable typeErrorMessage : engine_fault -> string.
Variable w : World.

Variable apiKey : string.
Variable fields : gmap string jsval.
Variables read_prompt read_style : option string.
Hypothesis prompt_read : readStringParam (VObj fields) "prompt" true = Ok read_prompt.
Hypothesis style_read : readStringParam (VObj fields) "preset_style" false = Ok read_style.

(** Once the arguments are read, [execute] submits the body built from
    them and goes on with the reply. *)
Lemma execute_submits (tr : list event) :
  execute readStringParam readResponseText DEFAULT_TIMEOUT_SECONDS ToolResult
    jsonResult typeErrorMessage w apiKey (VObj fields) tr
  = let post := submission_request apiKey DEFAULT_TIMEOUT_SECONDS
                  (body_of fields read_prompt read_style) in
    let tr1 := tr ++ [EvFetch post] in
    let failed e := (Ok (jsonResult (Failed (error_text typeErrorMessage e) [])), tr1) in
    match w (count_fetches tr) post with
    | Throw e => failed e
    | Ok res =>
        if ok res then
          match json res with
          | Throw e => failed e
          | Ok data =>
              match get_prop data "sdGenerationJob" with
              | Throw e => failed e
              | Ok job =>
                  match get_prop_opt job "generationId" with
                  | Throw e => failed e
                  | Ok generationId =>
                      if truthy generationId then
                        match pollForCompletion readResponseText w generationId
                                apiKey 60 tr1 with
                        | (Ok urls, tr2) =>
                            (Ok (jsonResult (Generated generationId urls (length urls))),
                             tr2)
                        | (Throw e, tr2) =>
                            (Ok (jsonResult (Failed (error_text typeErrorMessage e) [])),
                             tr2)
                        end
                      else failed (Error "Leonardo: no generationId in response")
                  end
              end
          end
        else
          match readResponseText res 4000 with
          | Throw e => failed e
          | Ok detail =>
              failed (Error ("Leonardo generation request failed ("
                               +:+ pretty (status res) +:+ "): "
                               +:+ or_str detail (statusText res)))
          end
    end.
Proof.
  unfold execute, try_catch, lift, throw, fetch.
  unfold mbind, M_bind, bind, mret, M_ret, ret.
  rewrite prompt_read, style_read. cbn [get_prop].
  rewrite !coalesce_supplied.
  change {| prompt := str_or_undef read_prompt;
            num_images := supplied_or fields "num_images" (VNum 1);
            width := supplied_or fields "width" (VNum 1024);
            height := supplied_or fields "height" (VNum 1024);
            presetStyle := default "FASHION" read_style |}
    with (body_of fields read_prompt read_style).
  unfold withTimeout.
  change {| method := POST; url := Generations; bearer := apiKey;
            body := Some (body_of fields read_prompt read_style);
            signal_ms := DEFAULT_TIMEOUT_SECONDS * 1000 |}
    with (submission_request apiKey DEFAULT_TIMEOUT_SECONDS (body_of fields read_prompt read_style)).
  cbv zeta.
  destruct (w (count_fetches tr) _) as [res|e]; [|done].
  destruct (ok res); simpl.
  - destruct (json res) as [data|e]; [|done].
    destruct (get_prop data "sdGenerationJob") as [job|e]; [|done].
    destruct (get_prop_opt job "generationId") as [generationId|e]; [|done].
    destruct (truthy generationId); simpl; [|done].
    by destruct (pollForCompletion _ _ _ _ _ _) as [[urls|e] tr2].
  - by destruct (readResponseText res 4000) as [detail|e].
Qed.

End Submission.

Lemma job_id_of_Some (reply : Result Response) (generationId : jsval) :
  job_id_of reply = Some generationId ->
  exists res data job,
    reply = Ok res /\ ok res = true /\ json res = Ok (VObj data)
    /\ data !! "sdGenerationJob" = Some (VObj job)
    /\ job !! "generationId" = Some generationId
    /\ truthy generationId = true.
Proof.
  unfold job_id_of. intros H.
  destruct reply as [[[] ? ? ? [[]|]]|]; try done.
  destruct (_ !! "sdGenerationJob") as [[]|] eqn:Ejob; try done.
  destruct (_ !! "generationId") as [v|] eqn:Eid; try done.
  destruct (truthy v) eqn:Etruthy; try done.
  inversion H; subst. by eexists _, _, _.
Qed.

Lemma lacks_job_id_true (reply : Result Response) :
  lacks_job_id reply = true ->
  exists res data,
    reply = Ok res /\ ok res = true /\ json res = Ok (VObj data)
    /\ (data !! "sdGenerationJob" = None
        \/ exists job, data !! "sdGenerationJob" = Some (VObj job)
                       /\ job !! "generationId" = None).
Proof.
  unfold lacks_job_id. intros H.
  destruct reply as [[[] ? ? ? [[]|]]|]; try done.
  destruct (_ !! "sdGenerationJob") as [[]|] eqn:Ejob; try done.
  - destruct (_ !! "generationId") as [v|] eqn:Eid; try done.
    eexists _, _. repeat split; try done. right. by eexists.
  - eexists _, _. repeat split; try done. by left.
Qed.

Section Runs.

Variable readStringParam : jsval -> string -> bool -> Result (option string).
Variable readResponseText : Response -> Z -> Result string.
Variable DEFAULT_TIMEOUT_SECONDS : Z.
Variable ToolResult : Type.
Variable jsonResult : payload -> ToolResult.
Variable typeErrorMessage : engine_fault -> string.
Variable w : World.

Variable apiKey : string.
Variable fields : gmap string jsval.
Variables read_prompt read_style : option string.
Hypothesis prompt_read : readStringParam (VObj fields) "prompt" true = Ok read_prompt.
Hypothesis style_read : readStringParam (VObj fields) "preset_style" false = Ok read_style.

(** When the reply to the submission carries a job identifier, [execute]
    polls for it with a timeout of 60 seconds. *)
Lemma execute_polls (tr : list event) (generationId : jsval) :
  let post := submission_request apiKey DEFAULT_TIMEOUT_SECONDS
                (body_of fields read_prompt read_style) in
  job_id_of (w (count_fetches tr) post) = Some generationId ->
  execute readStringParam readResponseText DEFAULT_TIMEOUT_SECONDS ToolResult
    jsonResult typeErrorMessage w apiKey (VObj fields) tr
  = match pollForCompletion readResponseText w generationId apiKey 60
            (tr ++ [EvFetch post]) with
    | (Ok urls, tr2) =>
        (Ok (jsonResult (Generated generationId urls (length urls))), tr2)
    | (Throw e, tr2) =>
        (Ok (jsonResult (Failed (error_text typeErrorMessage e) [])), tr2)
    end.
Proof.
  intros post (res & data & job & Hreply & Hok & Hjson & Hjob & Hid & Htruthy)%job_id_of_Some.
  rewrite (execute_submits _ _ _ _ _ _ _ _ _ _ _ prompt_read style_read).
  cbv zeta. fold post. rewrite Hreply, Hok, Hjson. cbn [get_prop].
  rewrite Hjob. unfold get_prop_opt. simpl. rewrite Hid. simpl. by rewrite Htruthy.
Qed.

(** What a run of [execute] adds to the trace once the arguments are
    read: the submission, then whole turns of the poller, at most 30; at
    least one when the reply carries a job identifier. *)
Lemma execute_trace (tr : list event) :
  let post := submission_request apiKey DEFAULT_TIMEOUT_SECONDS
                (body_of fields read_prompt read_style) in
  exists (n : nat) (polled : jsval),
    (n <= 30)%nat
    /\ snd (execute readStringParam readResponseText DEFAULT_TIMEOUT_SECONDS ToolResult
              jsonResult typeErrorMessage w apiKey (VObj fields) tr)
       = tr ++ EvFetch post :: cycles n polled apiKey
    /\ (forall generationId,
          job_id_of (w (count_fetches tr) post) = Some generationId ->
          (0 < n)%nat /\ polled = generationId).
Proof.
  intros post.
  destruct (job_id_of (w (count_fetches tr) post)) as [generationId|] eqn:Hjob.
  - rewrite (execute_polls tr generationId Hjob). fold post.
    destruct (poll_loop_trace readResponseText w generationId apiKey
                (loop_trips 0 (maxAttempts_of 60)) (maxAttempts_of 60)
                (tr ++ [EvFetch post])) as (n & Hn & Hpos & Htr).
    exists n, generationId. split; [exact Hn|]. split.
    + unfold pollForCompletion.
      destruct (poll_loop _ _ _ _ _ _ _) as [[urls|e] tr2]; simpl in *;
        rewrite Htr, <- app_assoc; done.
    + intros g [= <-]. split; [|done]. apply Hpos. vm_compute. lia.
  - exists 0%nat, VUndef. split; [lia|]. split; [|done].
    rewrite (execute_submits _ _ _ _ _ _ _ _ _ _ _ prompt_read style_read).
    cbv zeta. fold post.
    unfold job_id_of in Hjob.
    destruct (w (count_fetches tr) post) as [res|e]; [|done].
    destruct res as [[] st stt txt js]; simpl in *;
      [|by destruct (readResponseText _ _)].
    destruct js as [data|e]; [|done].
    destruct data; simpl; try done.
    destruct (_ !! "sdGenerationJob") as [[]|]; simpl; try done.
    destruct (_ !! "generationId") as [v|]; simpl; try done.
    by destruct (truthy v).
Qed.

End Runs.

Lemma string_app_assoc (a b c : string) : (a +:+ b) +:+ c = a +:+ (b +:+ c).
Proof.
  induction a as [|ch a IH]; [done|].
  change (String ch ((a +:+ b) +:+ c) = String ch (a +:+ (b +:+ c))).
  by rewrite IH.
Qed.

Lemma string_app_empty_r (a : string) : a +:+ "" = a.
Proof.
  induction a as [|ch a IH]; [done|].
  change (String ch (a +:+ "") = String ch a). by rewrite IH.
Qed.

Lemma contains_excerpt (before detail fallback : string) :
  contains detail (before +:+ or_str detail fallback).
Proof.
  unfold or_str. destruct (String.eqb_spec detail "") as [->|Hne].
  - by exists "", (before +:+ fallback).
  - exists before, "". by rewrite string_app_empty_r.
Qed.

(** C6. When the reply to the submission is not a success, [execute]
    returns at once the error whose message carries the status code and
    the excerpt of the body that [readResponseText] gives for at most 4000
    bytes; when the reply is a JSON object without the job identifier, it
    returns at once the error that the response has no generationId.  In
    both cases the submission is the only request: no status query is
    made. *)
Theorem execute_submission_failure
    (readStringParam : jsval -> string -> bool -> Result (option string))
    (readResponseText : Response -> Z -> Result string)
    (DEFAULT_TIMEOUT_SECONDS : Z) (ToolResult : Type) (jsonResult : payload -> ToolResult)
    (typeErrorMessage : engine_fault -> string) (w : World)
    (apiKey : string) (fields : gmap string jsval) (read_prompt read_style : option string)
    (tr : list event) :
  readStringParam (VObj fields) "prompt" true = Ok read_prompt ->
  readStringParam (VObj fields) "preset_style" false = Ok read_style ->
  let post := submission_request apiKey DEFAULT_TIMEOUT_SECONDS
                (body_of fields read_prompt read_style) in
  let run := execute readStringParam readResponseText DEFAULT_TIMEOUT_SECONDS
               ToolResult jsonResult typeErrorMessage w apiKey (VObj fields) tr in
  (forall (res : Response) (detail : string),
     w (count_fetches tr) post = Ok res ->
     ok res = false ->
     readResponseText res 4000 = Ok detail ->
     exists message : string,
       run = (Ok (jsonResult (Failed message [])), tr ++ [EvFetch post])
       /\ message = "Leonardo generation request failed (" +:+ pretty (status res)
                      +:+ "): " +:+ or_str detail (statusText res)
       /\ contains (pretty (status res)) message
       /\ contains detail message)
  /\ (lacks_job_id (w (count_fetches tr) post) = true ->
      run = (Ok (jsonResult (Failed "Leonardo: no generationId in response" [])),
             tr ++ [EvFetch post]))
  /\ status_queries (tr ++ [EvFetch post]) = status_queries tr.
Proof.
  intros Hprompt Hstyle post run. split; [|split].
  - intros res detail Hreply Hok Hdetail. eexists. split; [|split; [reflexivity|split]].
    + unfold run. rewrite (execute_submits _ _ _ _ _ _ _ _ _ _ _ Hprompt Hstyle).
      cbv zeta. fold post. by rewrite Hreply, Hok, Hdetail.
    + by eexists _, _.
    + rewrite <- !string_app_assoc. apply contains_excerpt.
  - intros (res & data & Hreply & Hok & Hjson & Hjob)%lacks_job_id_true.
    unfold run. rewrite (execute_submits _ _ _ _ _ _ _ _ _ _ _ Hprompt Hstyle).
    cbv zeta. fold post. rewrite Hreply, Hok, Hjson. simpl.
    destruct Hjob as [Hjob | (job & Hjob & Hid)]; rewrite Hjob; simpl; [done|].
    unfold get_prop_opt; simpl. by rewrite Hid.
  - rewrite status_queries_app. unfold status_queries; simpl. lia.
Qed.

Lemma execute_submission_failure_witness :
  plain_readStringParam (VObj bare_fields) "prompt" true = Ok (Some "a cat")
  /\ plain_readStringParam (VObj bare_fields) "preset_style" false = Ok None
  /\ run_execute rejecting "key" (VObj bare_fields)
     = (Ok (Failed "Leonardo generation request failed (500): boom" []),
        [EvFetch bare_post])
  /\ contains "500" "Leonardo generation request failed (500): boom"
  /\ status_queries [EvFetch bare_post] = 0%nat.
Proof.
  destruct (execute_submission_failure plain_readStringParam plain_readResponseText 30
              payload id plain_typeErrorMessage rejecting "key" bare_fields
              (Some "a cat") None [])
    as (Hrejected & _ & Hqueries); [reflexivity | reflexivity |].
  destruct (Hrejected {| ok := false; status := 500; statusText := "Internal Server Error";
                         text := "boom"; json := Throw (Error "Unexpected token") |}
              "boom")
    as (message & Hrun & -> & Hcode & _); [reflexivity | reflexivity | reflexivity |].
  split; [reflexivity|]. split; [reflexivity|]. split; [exact Hrun|].
  split; [exact Hcode | exact Hqueries].
Defined.

(** C7. The request that [execute] submits has the body
    [{prompt, num_images, width, height, presetStyle}]: the prompt and the
    style as [readStringParam] returns them, the numbers as the arguments
    give them, and the defaults 1, 1024, 1024 and "FASHION" for what is
    left out.  It is the only submission of the run. *)
Theorem execute_submits_defaulted_body
    (readStringParam : jsval -> string -> bool -> Result (option string))
    (readResponseText : Response -> Z -> Result string)
    (DEFAULT_TIMEOUT_SECONDS : Z) (ToolResult : Type) (jsonResult : payload -> ToolResult)
    (typeErrorMessage : engine_fault -> string) (w : World)
    (apiKey : string) (fields : gmap string jsval) (read_prompt read_style : option string)
    (tr : list event) :
  readStringParam (VObj fields) "prompt" true = Ok read_prompt ->
  readStringParam (VObj fields) "preset_style" false = Ok read_style ->
  let value_or (k : string) (dflt : jsval) :=
    match fields !! k with
    | Some v => if nullish v then dflt else v
    | None => dflt
    end in
  let submitted_body :=
    {| prompt := match read_prompt with Some s => VStr s | None => VUndef end;
       num_images := value_or "num_images" (VNum 1);
       width := value_or "width" (VNum 1024);
       height := value_or "height" (VNum 1024);
       presetStyle := match read_style with Some s => s | None => "FASHION" end |} in
  exists added : list event,
    snd (execute readStringParam readResponseText DEFAULT_TIMEOUT_SECONDS ToolResult
           jsonResult typeErrorMessage w apiKey (VObj fields) tr)
    = tr ++ EvFetch {| method := POST;
                       url := Generations;
                       bearer := apiKey;
                       body := Some submitted_body;
                       signal_ms := DEFAULT_TIMEOUT_SECONDS * 1000 |} :: added
    /\ submissions added = 0%nat.
Proof.
  intros Hprompt Hstyle value_or submitted_body.
  destruct (execute_trace readStringParam readResponseText DEFAULT_TIMEOUT_SECONDS
              ToolResult jsonResult typeErrorMessage w apiKey fields read_prompt
              read_style Hprompt Hstyle tr) as (n & polled & _ & Htr & _).
  exists (cycles n polled apiKey). split; [|apply submissions_cycles].
  rewrite Htr. unfold submission_request, body_of, submitted_body, value_or.
  by rewrite !supplied_or_value.
Qed.

Lemma execute_submits_defaulted_body_witness :
  (plain_readStringParam (VObj explicit_fields) "prompt" true = Ok (Some "a cat")
   /\ plain_readStringParam (VObj explicit_fields) "preset_style" false
      = Ok (Some "CINEMATIC")
   /\ exists added,
        snd (run_execute (scripted []) "key" (VObj explicit_fields))
        = [] ++ EvFetch {| method := POST; url := Generations; bearer := "key";
                           body := Some {| prompt := VStr "a cat";
                                           num_images := VNum 2;
                                           width := VNum 512;
                                           height := VNum 768;
                                           presetStyle := "CINEMATIC" |};
                           signal_ms := 30 * 1000 |} :: added
        /\ submissions added = 0%nat)
  /\ (plain_readStringParam (VObj bare_fields) "prompt" true = Ok (Some "a cat")
      /\ plain_readStringParam (VObj bare_fields) "preset_style" false = Ok None
      /\ exists added,
           snd (run_execute (scripted []) "key" (VObj bare_fields))
           = [] ++ EvFetch {| method := POST; url := Generations; bearer := "key";
                              body := Some {| prompt := VStr "a cat";
                                              num_images := VNum 1;
                                              width := VNum 1024;
                                              height := VNum 1024;
                                              presetStyle := "FASHION" |};
                              signal_ms := 30 * 1000 |} :: added
           /\ submissions added = 0%nat).
Proof.
  split.
  - split; [reflexivity|]. split; [reflexivity|].
    apply (execute_submits_defaulted_body plain_readStringParam plain_readResponseText 30
             payload id plain_typeErrorMessage (scripted []) "key" explicit_fields
             (Some "a cat") (Some "CINEMATIC") []); reflexivity.
  - split; [reflexivity|]. split; [reflexivity|].
    apply (execute_submits_defaulted_body plain_readStringParam plain_readResponseText 30
             payload id plain_typeErrorMessage (scripted []) "key" bare_fields
             (Some "a cat") None []); reflexivity.
Defined.

(** C9. When the reply to the submission carries a job identifier,
    [execute] makes at least one status query for it, and at most 30,
    before it returns; what it adds to the trace after the submission is
    a run of turns, each a sleep of 2000 ms followed by a status query. *)
Theorem execute_polls_before_result
    (readStringParam : jsval -> string -> bool -> Result (option string))
    (readResponseText : Response -> Z -> Result string)
    (DEFAULT_TIMEOUT_SECONDS : Z) (ToolResult : Type) (jsonResult : payload -> ToolResult)
    (typeErrorMessage : engine_fault -> string) (w : World)
    (apiKey : string) (fields : gmap string jsval) (read_prompt read_style : option string)
    (tr : list event) (generationId : jsval) :
  readStringParam (VObj fields) "prompt" true = Ok read_prompt ->
  readStringParam (VObj fields) "preset_style" false = Ok read_style ->
  let post := submission_request apiKey DEFAULT_TIMEOUT_SECONDS
                (body_of fields read_prompt read_style) in
  job_id_of (w (count_fetches tr) post) = Some generationId ->
  exists (result : ToolResult) (polled : list event),
    execute readStringParam readResponseText DEFAULT_TIMEOUT_SECONDS ToolResult
      jsonResult typeErrorMessage w apiKey (VObj fields) tr
    = (Ok result, tr ++ EvFetch post :: polled)
    /\ (1 <= status_queries polled <= 30)%nat
    /\ (forall (i : nat) (req : Request),
          polled !! i = Some (EvFetch req) ->
          req = {| method := GET; url := GenerationById generationId; bearer := apiKey;
                   body := None; signal_ms := 15000 |}
          /\ exists j : nat, i = S j /\ polled !! j = Some (EvSleep 2000)).
Proof.
  intros Hprompt Hstyle post Hjob.
  destruct (execute_trace readStringParam readResponseText DEFAULT_TIMEOUT_SECONDS
              ToolResult jsonResult typeErrorMessage w apiKey fields read_prompt
              read_style Hprompt Hstyle tr) as (n & polled & Hn & Htr & Hid).
  destruct (Hid generationId Hjob) as [Hpos ->].
  destruct (execute_outcome readStringParam readResponseText DEFAULT_TIMEOUT_SECONDS
              ToolResult jsonResult typeErrorMessage w apiKey (VObj fields) tr)
    as (p & tr' & Hrun & _).
  rewrite Hrun in Htr. simpl in Htr. subst tr'.
  exists (jsonResult p), (cycles n generationId apiKey).
  split; [exact Hrun|]. split.
  - rewrite status_queries_cycles. lia.
  - intros i req Hi. by apply cycles_lookup_fetch in Hi.
Qed.

Lemma execute_polls_before_result_witness :
  plain_readStringParam (VObj bare_fields) "prompt" true = Ok (Some "a cat")
  /\ plain_readStringParam (VObj bare_fields) "preset_style" false = Ok None
  /\ job_id_of
       (scripted [generation_reply "COMPLETE" [image "1" "https://cdn/a.png"]]
          (count_fetches []) bare_post)
     = Some job1
  /\ exists (result : payload) (polled : list event),
       run_execute (scripted [generation_reply "COMPLETE" [image "1" "https://cdn/a.png"]])
         "key" (VObj bare_fields)
       = (Ok result, [] ++ EvFetch bare_post :: polled)
       /\ (1 <= status_queries polled <= 30)%nat
       /\ (forall (i : nat) (req : Request),
             polled !! i = Some (EvFetch req) ->
             req = {| method := GET; url := GenerationById job1; bearer := "key";
                      body := None; signal_ms := 15000 |}
             /\ exists j : nat, i = S j /\ polled !! j = Some (EvSleep 2000)).
Proof.
  split; [reflexivity|]. split; [reflexivity|]. split; [reflexivity|].
  apply (execute_polls_before_result plain_readStringParam plain_readResponseText 30
           payload id plain_typeErrorMessage
           (scripted [generation_reply "COMPLETE" [image "1" "https://cdn/a.png"]])
           "key" bare_fields (Some "a cat") None [] job1); reflexivity.
Defined.

(** Arguments with a width of 7 and a height of 2000 conform to the
    declared schema. *)
Example odd_fields_conform :
  conforms LeonardoGenerateImageSchema (VObj odd_fields) = true.
Proof. reflexivity. Qed.

(** C8, as the specification states it, fails: the arguments with a width
    of 7 and a height of 2000 are submitted as they are. *)
Lemma submission_not_validated :
  ~ submits_only_within_bounds (snd (run_execute (scripted []) "key" (VObj odd_fields))).
Proof.
  intros Hvalid.
  destruct (execute_trace plain_readStringParam plain_readResponseText 30 payload id
              plain_typeErrorMessage (scripted []) "key" odd_fields (Some "a cat") None
              eq_refl eq_refl []) as (n & polled & _ & Htr & _).
  unfold run_execute in Hvalid. rewrite Htr in Hvalid.
  destruct (Hvalid (submission_request "key" 30 (body_of odd_fields (Some "a cat") None)))
    as (b & Hbody & Hbounds); [apply list_elem_of_here | reflexivity |].
  injection Hbody as <-. vm_compute in Hbounds. discriminate.
Qed.

(** C8, amended.  Before the creation call [execute] fills in the
    defaults and checks no bounds: an image count, a width or a height
    that the arguments carry is submitted as given, whatever its value,
    and one that is left out, or given as null or undefined, becomes 1,
    1024 or 1024.  The declared schema accepts every number as width and
    as height, and as image count the numbers from 1 to 4, integers or
    not. *)
Theorem execute_submits_without_validation
    (readStringParam : jsval -> string -> bool -> Result (option string))
    (readResponseText : Response -> Z -> Result string)
    (DEFAULT_TIMEOUT_SECONDS : Z) (ToolResult : Type) (jsonResult : payload -> ToolResult)
    (typeErrorMessage : engine_fault -> string) (w : World)
    (apiKey : string) (fields : gmap string jsval) (read_prompt read_style : option string)
    (tr : list event) :
  readStringParam (VObj fields) "prompt" true = Ok read_prompt ->
  readStringParam (VObj fields) "preset_style" false = Ok read_style ->
  (exists (b : GenerationBody) (added : list event),
     snd (execute readStringParam readResponseText DEFAULT_TIMEOUT_SECONDS ToolResult
            jsonResult typeErrorMessage w apiKey (VObj fields) tr)
     = tr ++ EvFetch (submission_request apiKey DEFAULT_TIMEOUT_SECONDS b) :: added
     /\ (forall v, nullish v = false ->
           (fields !! "num_images" = Some v -> num_images b = v)
           /\ (fields !! "width" = Some v -> width b = v)
           /\ (fields !! "height" = Some v -> height b = v))
     /\ (fields !! "num_images" = None -> num_images b = VNum 1)
     /\ (fields !! "width" = None -> width b = VNum 1024)
     /\ (fields !! "height" = None -> height b = VNum 1024)
     /\ (forall v, v = VNull \/ v = VUndef ->
           (fields !! "num_images" = Some v -> num_images b = VNum 1)
           /\ (fields !! "width" = Some v -> width b = VNum 1024)
           /\ (fields !! "height" = Some v -> height b = VNum 1024)))
  /\ (forall q r : Q,
        conforms LeonardoGenerateImageSchema
          (obj [("prompt", VStr "a cat"); ("width", VNum q); ("height", VNum r)]) = true)
  /\ (forall q : Q,
        conforms LeonardoGenerateImageSchema
          (obj [("prompt", VStr "a cat"); ("num_images", VNum q)])
        = Qle_bool 1 q && Qle_bool q 4).
Proof.
  intros Hprompt Hstyle. split; [|split].
  - destruct (execute_trace readStringParam readResponseText DEFAULT_TIMEOUT_SECONDS
                ToolResult jsonResult typeErrorMessage w apiKey fields read_prompt
                read_style Hprompt Hstyle tr) as (n & polled & _ & Htr & _).
    exists (body_of fields read_prompt read_style), (cycles n polled apiKey).
    split; [exact Htr|]. unfold body_of; simpl. rewrite !supplied_or_value.
    split; [|split; [|split; [|split]]].
    + intros v Hv. by repeat split; intros ->; rewrite Hv.
    + by intros ->.
    + by intros ->.
    + by intros ->.
    + intros v [-> | ->]; by repeat split; intros ->.
  - intros q r. reflexivity.
  - intros q.
    change (true && (Qle_bool 1 q && Qle_bool q 4 && (true && (true && (true && true))))
            = Qle_bool 1 q && Qle_bool q 4).
    by destruct (Qle_bool 1 q), (Qle_bool q 4).
Qed.

Lemma execute_submits_without_validation_witness :
  (plain_readStringParam (VObj odd_fields) "prompt" true = Ok (Some "a cat")
   /\ plain_readStringParam (VObj odd_fields) "preset_style" false = Ok None
   /\ exists (b : GenerationBody) (added : list event),
        snd (run_execute (scripted []) "key" (VObj odd_fields))
        = [] ++ EvFetch (submission_request "key" 30 b) :: added
        /\ num_images b = VNum 4 /\ width b = VNum 7 /\ height b = VNum 2000)
  /\ (plain_readStringParam (VObj null_fields) "prompt" true = Ok (Some "a cat")
      /\ plain_readStringParam (VObj null_fields) "preset_style" false = Ok None
      /\ exists (b : GenerationBody) (added : list event),
           snd (run_execute (scripted []) "key" (VObj null_fields))
           = [] ++ EvFetch (submission_request "key" 30 b) :: added
           /\ num_images b = VNum 1 /\ width b = VNum 1024 /\ height b = VNum 0).
Proof.
  split.
  - split; [reflexivity|]. split; [reflexivity|].
    destruct (execute_submits_without_validation plain_readStringParam
                plain_readResponseText 30 payload id plain_typeErrorMessage (scripted [])
                "key" odd_fields (Some "a cat") None [])
      as ((b & added & Htr & Hgiven & _) & _); [reflexivity | reflexivity |].
    exists b, added. split; [exact Htr|].
    split; [|split].
    + by apply (Hgiven (VNum 4)).
    + by apply (Hgiven (VNum 7)).
    + by apply (Hgiven (VNum 2000)).
  - split; [reflexivity|]. split; [reflexivity|].
    destruct (execute_submits_without_validation plain_readStringParam
                plain_readResponseText 30 payload id plain_typeErrorMessage (scripted [])
                "key" null_fields (Some "a cat") None [])
      as ((b & added & Htr & Hgiven & Hcount & _ & _ & Hnull) & _);
      [reflexivity | reflexivity |].
    exists b, added. split; [exact Htr|].
    split; [|split].
    + by apply Hcount.
    + by apply (Hnull VNull); [left|].
    + by apply (Hgiven (VNum 0)).
Defined.

(** C10. [execute] always polls with the timeout 60, whatever its
    arguments: the budget is min(30, floor(60000 / 2000)) = 30, no run
    makes more than 30 status queries or sleeps more than 60 seconds, and
    a run whose job stays pending makes exactly 30 status queries and
    fails with the timeout error after 60 seconds. *)
Theorem execute_polls_for_sixty_seconds
    (readStringParam : jsval -> string -> bool -> Result (option string))
    (readResponseText : Response -> Z -> Result string)
    (DEFAULT_TIMEOUT_SECONDS : Z) (ToolResult : Type) (jsonResult : payload -> ToolResult)
    (typeErrorMessage : engine_fault -> string) (w : World) (apiKey : string) :
  maxAttempts_of 60 = 30
  /\ Z.min 30 (60 * 1000 / 2000) = 30
  /\ (forall (args : jsval) (tr : list event),
        let tr' := snd (execute readStringParam readResponseText DEFAULT_TIMEOUT_SECONDS
                          ToolResult jsonResult typeErrorMessage w apiKey args tr) in
        (status_queries tr' <= status_queries tr + 30)%nat
        /\ slept_ms tr' <= slept_ms tr + 60 * 1000)
  /\ (forall (fields : gmap string jsval) (read_prompt read_style : option string)
             (tr : list event) (generationId : jsval),
        readStringParam (VObj fields) "prompt" true = Ok read_prompt ->
        readStringParam (VObj fields) "preset_style" false = Ok read_style ->
        let post := submission_request apiKey DEFAULT_TIMEOUT_SECONDS
                      (body_of fields read_prompt read_style) in
        job_id_of (w (count_fetches tr) post) = Some generationId ->
        (forall i : nat, (i < 30)%nat ->
           keeps_waiting (w (S (count_fetches tr) + i)%nat
                            (status_request generationId apiKey)) = true) ->
        execute readStringParam readResponseText DEFAULT_TIMEOUT_SECONDS ToolResult
          jsonResult typeErrorMessage w apiKey (VObj fields) tr
        = (Ok (jsonResult (Failed "Leonardo generation timed out after 60 seconds" [])),
           tr ++ EvFetch post :: cycles 30 generationId apiKey)
        /\ status_queries (cycles 30 generationId apiKey) = 30%nat
        /\ slept_ms (cycles 30 generationId apiKey) = 60 * 1000).
Proof.
  split; [reflexivity|]. split; [reflexivity|]. split.
  - intros args tr tr'.
    destruct (execute_outcome readStringParam readResponseText DEFAULT_TIMEOUT_SECONDS
                ToolResult jsonResult typeErrorMessage w apiKey args tr)
      as (p & tr2 & Hrun & _ & _ & Hqueries & Hslept).
    unfold tr'. rewrite Hrun. simpl. lia.
  - intros fields read_prompt read_style tr generationId Hprompt Hstyle post Hjob Hwait.
    split; [|split; [apply status_queries_cycles | by rewrite slept_ms_cycles]].
    rewrite (execute_polls _ _ _ _ _ _ _ _ _ _ _ Hprompt Hstyle tr generationId Hjob).
    fold post. unfold pollForCompletion.
    change (loop_trips 0 (maxAttempts_of 60)) with (30 + 0)%nat.
    rewrite poll_loop_waiting.
    + simpl. by rewrite <- app_assoc.
    + intros i Hi. rewrite count_fetches_app.
      replace (count_fetches tr + count_fetches [EvFetch post] + i)%nat
        with (S (count_fetches tr) + i)%nat by (unfold count_fetches; simpl; lia).
      by apply Hwait.
Qed.

Lemma execute_polls_for_sixty_seconds_witness :
  plain_readStringParam (VObj hurried_fields) "prompt" true = Ok (Some "a cat")
  /\ plain_readStringParam (VObj hurried_fields) "preset_style" false = Ok None
  /\ job_id_of
       (scripted [] (count_fetches [])
          (submission_request "key" 30 (body_of hurried_fields (Some "a cat") None)))
     = Some job1
  /\ (forall i : nat, (i < 30)%nat ->
        keeps_waiting (scripted [] (S (count_fetches []) + i)%nat (status_request job1 "key"))
        = true)
  /\ run_execute (scripted []) "key" (VObj hurried_fields)
     = (Ok (Failed "Leonardo generation timed out after 60 seconds" []),
        [] ++ EvFetch (submission_request "key" 30
                         (body_of hurried_fields (Some "a cat") None))
           :: cycles 30 job1 "key")
  /\ status_queries (cycles 30 job1 "key") = 30%nat
  /\ slept_ms (cycles 30 job1 "key") = 60 * 1000.
Proof.
  assert (forall i : nat, (i < 30)%nat ->
            keeps_waiting (scripted [] (S (count_fetches []) + i)%nat
                             (status_request job1 "key")) = true) as Hwait
    by (intros i _; reflexivity).
  split; [reflexivity|]. split; [reflexivity|]. split; [reflexivity|].
  split; [exact Hwait|].
  apply (proj2 (proj2 (proj2
           (execute_polls_for_sixty_seconds plain_readStringParam plain_readResponseText
              30 payload id plain_typeErrorMessage (scripted []) "key")))
           hurried_fields (Some "a cat") None [] job1);
    [reflexivity | reflexivity | reflexivity | exact Hwait].
Defined.

(** * Further properties of the code *)

(** ** Resolving the key *)

Section Resolution.

Variable trim : string -> string.

Lemma resolve_by_configured_key (config : jsval) (env : option string) :
  resolveLeonardoApiKey trim config env
  = match configured_key config with
    | Some v =>
        match trim_opt trim v with
        | Throw e => Throw e
        | Ok (Some k) =>
            if String.eqb k "" then Ok (key_from_env trim env) else Ok (Some k)
        | Ok None => Ok (key_from_env trim env)
        end
    | None => Ok (key_from_env trim env)
    end.
Proof.
  unfold resolveLeonardoApiKey, configured_key, get_prop_opt.
  destruct config as [| | | | | |c]; simpl; try done.
  destruct (c !! "tools") as [tools|]; simpl; [|done].
  destruct tools as [| | | | | |t]; simpl; try done.
  destruct (t !! "leonardo") as [leonardo|]; simpl; [|done].
  destruct leonardo as [| | [] | | | |l]; simpl; try done.
  - by destruct (negb _).
  - by destruct (negb _).
  - destruct (l !! "apiKey") as [v|] eqn:Hv.
    + rewrite bool_decide_true by eauto. done.
    + rewrite bool_decide_false by (by intros [? ?]). done.
Qed.

Lemma key_from_env_nonempty (env : option string) (k : string) :
  key_from_env trim env = Some k -> k <> "".
Proof.
  unfold key_from_env. destruct env as [e|]; [|done].
  destruct (String.eqb_spec (trim e) ""); [done|]. by intros [= <-].
Qed.

Lemma resolve_nonempty (config : jsval) (env : option string) (k : string) :
  resolveLeonardoApiKey trim config env = Ok (Some k) -> k <> "".
Proof.
  rewrite resolve_by_configured_key.
  destruct (configured_key config) as [v|].
  - destruct (trim_opt trim v) as [[k'|]|]; try done.
    + destruct (String.eqb_spec k' "").
      * intros [= H]. by eapply key_from_env_nonempty.
      * by intros [= <-].
    + intros [= H]. by eapply key_from_env_nonempty.
  - intros [= H]. by eapply key_from_env_nonempty.
Qed.

End Resolution.

(** X1. A key in the configuration that is not blank wins over the
    environment: the result is that key, trimmed, whatever the variable
    holds. *)
Theorem resolve_config_key_wins
    (trim : string -> string) (config : jsval) (env : option string) (s : string) :
  configured_key config = Some (VStr s) ->
  trim s <> "" ->
  resolveLeonardoApiKey trim config env = Ok (Some (trim s)).
Proof.
  intros Hkey Hblank. rewrite resolve_by_configured_key, Hkey. simpl.
  by destruct (String.eqb_spec (trim s) "").
Qed.

Lemma resolve_config_key_wins_witness :
  configured_key (config_with_key (VStr "  cfg-key ")) = Some (VStr "  cfg-key ")
  /\ ascii_trim "  cfg-key " <> ""
  /\ resolveLeonardoApiKey ascii_trim (config_with_key (VStr "  cfg-key "))
       (Some "env-key")
     = Ok (Some "cfg-key").
Proof.
  split; [reflexivity|]. split; [discriminate|].
  apply (resolve_config_key_wins ascii_trim (config_with_key (VStr "  cfg-key "))
           (Some "env-key") "  cfg-key "); [reflexivity | discriminate].
Defined.

(** X2. Without a usable key in the configuration (no configuration or
    no [tools.leonardo.apiKey] in it, a null key, or a key that is blank
    once trimmed) the key is the environment variable, trimmed; a variable
    that is unset or blank gives no key. *)
Theorem resolve_falls_back_to_env
    (trim : string -> string) (config : jsval) (env : option string) :
  (configured_key config = None
   \/ configured_key config = Some VNull
   \/ exists s, configured_key config = Some (VStr s) /\ trim s = "") ->
  resolveLeonardoApiKey trim config env
  = Ok (match env with
        | Some e => if decide (trim e = "") then None else Some (trim e)
        | None => None
        end).
Proof.
  intros Hconfig. rewrite resolve_by_configured_key.
  assert (key_from_env trim env
          = match env with
            | Some e => if decide (trim e = "") then None else Some (trim e)
            | None => None
            end) as ->.
  { unfold key_from_env. destruct env as [e|]; [|done].
    destruct (String.eqb_spec (trim e) ""), (decide (trim e = "")); done. }
  destruct Hconfig as [-> | [-> | (s & -> & Hs)]]; [done | done |].
  simpl. by rewrite Hs.
Qed.

Lemma resolve_falls_back_to_env_witness :
  (configured_key config_without_leonardo = None
   \/ configured_key config_without_leonardo = Some VNull
   \/ exists s, configured_key config_without_leonardo = Some (VStr s)
                /\ ascii_trim s = "")
  /\ resolveLeonardoApiKey ascii_trim config_without_leonardo (Some " env-key ")
     = Ok (Some "env-key")
  /\ resolveLeonardoApiKey ascii_trim config_without_leonardo (Some "   ") = Ok None.
Proof.
  assert (configured_key config_without_leonardo = None
          \/ configured_key config_without_leonardo = Some VNull
          \/ exists s, configured_key config_without_leonardo = Some (VStr s)
                       /\ ascii_trim s = "") as Hconfig
    by (left; reflexivity).
  split; [exact Hconfig|]. split.
  - apply (resolve_falls_back_to_env ascii_trim config_without_leonardo
             (Some " env-key ") Hconfig).
  - apply (resolve_falls_back_to_env ascii_trim config_without_leonardo
             (Some "   ") Hconfig).
Defined.

(** X3. A key in the configuration that is neither a string nor null
    makes the resolution throw a TypeError, whatever the environment
    holds; [createLeonardoTool] throws it too. *)
Theorem resolve_rejects_non_string_key
    (readStringParam : jsval -> string -> bool -> Result (option string))
    (readResponseText : Response -> Z -> Result string)
    (DEFAULT_TIMEOUT_SECONDS : Z) (ToolResult : Type) (jsonResult : payload -> ToolResult)
    (typeErrorMessage : engine_fault -> string) (w : World)
    (trim : string -> string) (options : gmap string jsval) (config v : jsval)
    (env : option string) :
  options !! "config" = Some config ->
  configured_key config = Some v ->
  nullish v = false ->
  (forall s, v <> VStr s) ->
  resolveLeonardoApiKey trim config env = Throw (TypeError (NotAFunction "trim"))
  /\ createLeonardoTool readStringParam readResponseText DEFAULT_TIMEOUT_SECONDS
       ToolResult jsonResult typeErrorMessage w trim (VObj options) env
     = Throw (TypeError (NotAFunction "trim")).
Proof.
  intros Hoptions Hkey Hnullish Hstring.
  assert (resolveLeonardoApiKey trim config env = Throw (TypeError (NotAFunction "trim")))
    as Hresolve.
  { rewrite resolve_by_configured_key, Hkey.
    destruct v; simpl; try done. by destruct (Hstring s). }
  split; [exact Hresolve|].
  unfold createLeonardoTool, get_prop_opt. simpl. rewrite Hoptions. simpl.
  by rewrite Hresolve.
Qed.

Lemma resolve_rejects_non_string_key_witness :
  (list_to_map [("config", config_with_key (VNum 12345))] : gmap string jsval) !! "config"
  = Some (config_with_key (VNum 12345))
  /\ configured_key (config_with_key (VNum 12345)) = Some (VNum 12345)
  /\ nullish (VNum 12345) = false
  /\ (forall s, VNum 12345 <> VStr s)
  /\ resolveLeonardoApiKey ascii_trim (config_with_key (VNum 12345)) (Some "env-key")
     = Throw (TypeError (NotAFunction "trim"))
  /\ createLeonardoTool plain_readStringParam plain_readResponseText 30 payload id
       plain_typeErrorMessage unreachable ascii_trim
       (obj [("config", config_with_key (VNum 12345))]) (Some "env-key")
     = Throw (TypeError (NotAFunction "trim")).
Proof.
  assert (forall s, VNum 12345 <> VStr s) as Hstring by (intros s; discriminate).
  split; [reflexivity|]. split; [reflexivity|]. split; [reflexivity|].
  split; [exact Hstring|].
  apply (resolve_rejects_non_string_key plain_readStringParam plain_readResponseText 30
           payload id plain_typeErrorMessage unreachable ascii_trim
           (list_to_map [("config", config_with_key (VNum 12345))])
           (config_with_key (VNum 12345)) (VNum 12345) (Some "env-key"));
    [reflexivity | reflexivity | reflexivity | exact Hstring].
Defined.

(** ** Every run of the tool *)

Lemma authorized_by_cycles (apiKey : string) (n : nat) (generationId : jsval) :
  authorized_by apiKey (cycles n generationId apiKey).
Proof.
  intros req [i Hi]%list_elem_of_lookup.
  by apply cycles_lookup_fetch in Hi as [-> _].
Qed.

Section AnyRun.

Variable readStringParam : jsval -> string -> bool -> Result (option string).
Variable readResponseText : Response -> Z -> Result string.
Variable DEFAULT_TIMEOUT_SECONDS : Z.
Variable ToolResult : Type.
Variable jsonResult : payload -> ToolResult.
Variable typeErrorMessage : engine_fault -> string.
Variable w : World.

Ltac split_body :=
  match goal with
  | |- context [match ?x with _ => _ end] =>
      lazymatch x with
      | context [pollForCompletion] => fail
      | context [match _ with _ => _ end] => fail
      | _ => destruct x eqn:?; simpl
      end
  end.

(** What a run of [execute] adds to the trace, whatever its arguments:
    nothing, or one submission followed by whole turns of the poller for
    one job. *)
Lemma execute_added (apiKey : string) (args : jsval) (tr : list event) :
  exists added : list event,
    snd (execute readStringParam readResponseText DEFAULT_TIMEOUT_SECONDS ToolResult
           jsonResult typeErrorMessage w apiKey args tr)
    = tr ++ added
    /\ (added = []
        \/ exists (b : GenerationBody) (n : nat) (generationId : jsval),
             added = EvFetch (submission_request apiKey DEFAULT_TIMEOUT_SECONDS b)
                       :: cycles n generationId apiKey
             /\ (n <= 30)%nat).
Proof.
  unfold execute, try_catch, lift, throw, fetch.
  unfold mbind, M_bind, bind, mret, M_ret, ret; simpl.
  repeat split_body;
    try (exists []; split; [by rewrite app_nil_r | by left]);
    try (eexists; split; [reflexivity|]; right;
         eexists _, 0%nat, VUndef; split; [reflexivity | lia]).
  match goal with
  | |- context [pollForCompletion ?r ?w ?g ?k ?t ?tr0] =>
      destruct (poll_loop_trace r w g k (loop_trips 0 (maxAttempts_of t))
                  (maxAttempts_of t) tr0) as (n & Hn & _ & Htr);
      pose proof (loop_trips_le t);
      unfold pollForCompletion;
      destruct (poll_loop r w (loop_trips 0 (maxAttempts_of t)) g k
                  (maxAttempts_of t) tr0) as [[urls|e] tr'];
      simpl in Htr; subst tr'; simpl;
      rewrite <- app_assoc;
      (eexists; split; [reflexivity|]; right;
       eexists _, n, g; split; [reflexivity | lia])
  end.
Qed.

Lemma execute_authorized (apiKey : string) (args : jsval) (tr : list event) :
  exists added : list event,
    snd (execute readStringParam readResponseText DEFAULT_TIMEOUT_SECONDS ToolResult
           jsonResult typeErrorMessage w apiKey args tr)
    = tr ++ added
    /\ authorized_by apiKey added.
Proof.
  destruct (execute_added apiKey args tr)
    as (added & Htr & [Hadded | (b & n & generationId & Hadded & _)]).
  - exists added. split; [exact Htr|]. subst added.
    intros req Hin. by apply elem_of_nil in Hin.
  - exists added. split; [exact Htr|]. subst added.
    intros req [[= ->] | Hin]%elem_of_cons; [done|].
    by eapply authorized_by_cycles.
Qed.

End AnyRun.

(** X4. When a key is resolved, [createLeonardoTool] returns the tool
    named generate_image with the declared schema, and every request that
    its [execute] sends, whatever the arguments and the service, carries
    that key. *)
Theorem created_tool_uses_resolved_key
    (readStringParam : jsval -> string -> bool -> Result (option string))
    (readResponseText : Response -> Z -> Result string)
    (DEFAULT_TIMEOUT_SECONDS : Z) (ToolResult : Type) (jsonResult : payload -> ToolResult)
    (typeErrorMessage : engine_fault -> string) (w : World)
    (trim : string -> string) (options config : jsval) (env : option string)
    (apiKey : string) :
  get_prop_opt options "config" = Ok config ->
  resolveLeonardoApiKey trim config env = Ok (Some apiKey) ->
  exists tool : AgentTool ToolResult,
    createLeonardoTool readStringParam readResponseText DEFAULT_TIMEOUT_SECONDS
      ToolResult jsonResult typeErrorMessage w trim options env
    = Ok (Some tool)
    /\ name tool = "generate_image"
    /\ parameters tool = LeonardoGenerateImageSchema
    /\ apiKey <> ""
    /\ (forall (toolCallId : string) (args : jsval) (tr : list event),
          exists added : list event,
            snd (tool_execute tool toolCallId args tr) = tr ++ added
            /\ authorized_by apiKey added).
Proof.
  intros Hconfig Hresolve.
  pose proof (resolve_nonempty trim config env apiKey Hresolve) as Hne.
  unfold createLeonardoTool. rewrite Hconfig, Hresolve. simpl.
  destruct (String.eqb_spec apiKey ""); [done|]. simpl.
  eexists. split; [reflexivity|]. simpl. repeat split; try done.
  intros _ args tr. apply execute_authorized.
Qed.

Lemma created_tool_uses_resolved_key_witness :
  get_prop_opt (obj [("config", config_with_key (VStr "  cfg-key "))]) "config"
  = Ok (config_with_key (VStr "  cfg-key "))
  /\ resolveLeonardoApiKey ascii_trim (config_with_key (VStr "  cfg-key ")) None
     = Ok (Some "cfg-key")
  /\ exists tool : AgentTool payload,
       createLeonardoTool plain_readStringParam plain_readResponseText 30 payload id
         plain_typeErrorMessage (scripted []) ascii_trim
         (obj [("config", config_with_key (VStr "  cfg-key "))]) None
       = Ok (Some tool)
       /\ name tool = "generate_image"
       /\ parameters tool = LeonardoGenerateImageSchema
       /\ "cfg-key" <> ""
       /\ (forall (toolCallId : string) (args : jsval) (tr : list event),
             exists added : list event,
               snd (tool_execute tool toolCallId args tr) = tr ++ added
               /\ authorized_by "cfg-key" added).
Proof.
  split; [reflexivity|]. split; [reflexivity|].
  apply (created_tool_uses_resolved_key plain_readStringParam plain_readResponseText 30
           payload id plain_typeErrorMessage (scripted []) ascii_trim
           (obj [("config", config_with_key (VStr "  cfg-key "))])
           (config_with_key (VStr "  cfg-key ")) None "cfg-key"); reflexivity.
Defined.

(** X5. With no usable key in the configuration and an environment
    variable that is unset or blank, [createLeonardoTool] returns null:
    the tool is not offered and nothing is thrown. *)
Theorem no_key_no_tool
    (readStringParam : jsval -> string -> bool -> Result (option string))
    (readResponseText : Response -> Z -> Result string)
    (DEFAULT_TIMEOUT_SECONDS : Z) (ToolResult : Type) (jsonResult : payload -> ToolResult)
    (typeErrorMessage : engine_fault -> string) (w : World)
    (trim : string -> string) (options config : jsval) (env : option string) :
  get_prop_opt options "config" = Ok config ->
  (configured_key config = None
   \/ configured_key config = Some VNull
   \/ exists s, configured_key config = Some (VStr s) /\ trim s = "") ->
  (env = None \/ exists e, env = Some e /\ trim e = "") ->
  createLeonardoTool readStringParam readResponseText DEFAULT_TIMEOUT_SECONDS
    ToolResult jsonResult typeErrorMessage w trim options env
  = Ok None.
Proof.
  intros Hconfig Hkey Henv. unfold createLeonardoTool. rewrite Hconfig.
  assert (resolveLeonardoApiKey trim config env = Ok None) as ->; [|done].
  rewrite resolve_by_configured_key.
  assert (key_from_env trim env = None) as Hnone.
  { unfold key_from_env. destruct Henv as [-> | (e & -> & He)]; [done|]. by rewrite He. }
  rewrite Hnone.
  destruct Hkey as [-> | [-> | (s & -> & Hs)]]; [done | done |].
  simpl. by rewrite Hs.
Qed.

Lemma no_key_no_tool_witness :
  get_prop_opt VUndef "config" = Ok VUndef
  /\ (configured_key VUndef = None
      \/ configured_key VUndef = Some VNull
      \/ exists s, configured_key VUndef = Some (VStr s) /\ ascii_trim s = "")
  /\ (Some "  " = None \/ exists e, Some "  " = Some e /\ ascii_trim e = "")
  /\ createLeonardoTool plain_readStringParam plain_readResponseText 30 payload id
       plain_typeErrorMessage (scripted []) ascii_trim VUndef (Some "  ")
     = Ok None.
Proof.
  assert (configured_key VUndef = None
          \/ configured_key VUndef = Some VNull
          \/ exists s, configured_key VUndef = Some (VStr s) /\ ascii_trim s = "")
    as Hkey by (left; reflexivity).
  assert (Some "  " = None \/ exists e, Some "  " = Some e /\ ascii_trim e = "")
    as Henv by (right; exists "  "; split; reflexivity).
  split; [reflexivity|]. split; [exact Hkey|]. split; [exact Henv|].
  apply (no_key_no_tool plain_readStringParam plain_readResponseText 30 payload id
           plain_typeErrorMessage (scripted []) ascii_trim VUndef VUndef (Some "  "));
    [reflexivity | exact Hkey | exact Henv].
Defined.

(** ** Other outcomes of a status query *)

Section Stops.

Variable readResponseText : Response -> Z -> Result string.

Ltac run_cycle :=
  unfold cycle_outcome, poll_cycle, sleep, fetch, lift, throw;
  unfold mbind, M_bind, bind, mret, M_ret, ret; simpl.

Lemma cycle_outcome_http_error (res : Response) (detail : string) :
  ok res = false ->
  readResponseText res 4000 = Ok detail ->
  cycle_outcome readResponseText (Ok res)
  = Throw (Error ("Leonardo poll error (" +:+ pretty (status res) +:+ "): "
                    +:+ or_str detail (statusText res))).
Proof. intros Hok Hdetail. run_cycle. by rewrite Hok, Hdetail. Qed.

Lemma cycle_outcome_rejected (e : exn) :
  cycle_outcome readResponseText (Throw e) = Throw e.
Proof. done. Qed.

Lemma cycle_outcome_unparsed (res : Response) (e : exn) :
  ok res = true -> json res = Throw e ->
  cycle_outcome readResponseText (Ok res) = Throw e.
Proof. intros Hok Hjson. run_cycle. by rewrite Hok, Hjson. Qed.

Lemma cycle_outcome_shape (res : Response) (data : gmap string jsval) :
  ok res = true -> json res = Ok (VObj data) ->
  truthy (default VUndef (data !! "generations_by_pk")) = false ->
  cycle_outcome readResponseText (Ok res)
  = Throw (Error "Leonardo: unexpected poll response shape").
Proof.
  intros Hok Hjson Hfalsy. run_cycle. rewrite Hok, Hjson. simpl.
  by rewrite Hfalsy.
Qed.

Lemma cycle_outcome_images (res : Response) (data generation : gmap string jsval)
    (images : jsval) :
  ok res = true -> json res = Ok (VObj data) ->
  data !! "generations_by_pk" = Some (VObj generation) ->
  has_status generation "COMPLETE" = true ->
  generation !! "generated_images" = Some images ->
  nullish images = false ->
  forall e, map_url images = Throw e ->
  cycle_outcome readResponseText (Ok res) = Throw e.
Proof.
  intros Hok Hjson Hgen Hst Himages Hnullish e Hmap.
  rewrite (cycle_outcome_generation readResponseText (Ok res) generation).
  - rewrite (has_status_exclusive generation "COMPLETE" "FAILED") by done.
    rewrite Hst, Himages. simpl. unfold coalesce. by rewrite Hnullish, Hmap.
  - unfold generation_of. destruct res as [o st stt txt js]; simpl in *. subst.
    by rewrite Hgen.
Qed.

Lemma cycle_outcome_truthy (reply : Result Response) (urls : list jsval) :
  cycle_outcome readResponseText reply = Ok (Some urls) ->
  Forall (fun u => truthy u = true) urls.
Proof.
  run_cycle.
  destruct reply as [res|e]; simpl; [|done].
  repeat (case_match; simpl; try done).
  intros [= <-]. apply Forall_forall. intros u Hu.
  by apply list_elem_of_filter in Hu as [Hu _].
Qed.

End Stops.

Lemma map_result_null_entry (items : list jsval) :
  VNull ∈ items -> VUndef ∉ items ->
  map_result (fun img => get_prop img "url") items
  = Throw (TypeError (ReadOfNullish VNull "url")).
Proof.
  induction items as [|item rest IH]; intros Hin Hout.
  - by apply elem_of_nil in Hin.
  - apply not_elem_of_cons in Hout as [Hitem Hrest].
    apply elem_of_cons in Hin as [<- | Hin]; [done|].
    simpl. rewrite (IH Hin Hrest).
    destruct item; simpl; done.
Qed.

Section Decided.

Variable readResponseText : Response -> Z -> Result string.
Variable w : World.
Variables (generationId : jsval) (apiKey : string).

(** The poller ends with the exception of the first turn that throws. *)
Lemma poll_stops_with (k : nat) (t : Z) (tr : list event) (e : exn) :
  Z.of_nat k < maxAttempts_of t ->
  (forall i : nat, (i < k)%nat ->
     keeps_waiting (w (count_fetches tr + i)%nat (status_request generationId apiKey))
     = true) ->
  cycle_outcome readResponseText
    (w (count_fetches tr + k)%nat (status_request generationId apiKey)) = Throw e ->
  pollForCompletion readResponseText w generationId apiKey t tr
  = (Throw e, tr ++ cycles (S k) generationId apiKey).
Proof.
  intros Hk Hwait Hthrow. rewrite (poll_loop_decided _ _ _ _ k) by done.
  by rewrite Hthrow.
Qed.

Lemma poll_loop_truthy (n : nat) (m : Z) (tr tr' : list event) (urls : list jsval) :
  poll_loop readResponseText w n generationId apiKey m tr = (Ok urls, tr') ->
  Forall (fun u => truthy u = true) urls.
Proof.
  revert tr. induction n as [|n IH]; intros tr; [done|].
  rewrite poll_loop_S.
  destruct (cycle_outcome _ _) as [[found|]|e] eqn:E.
  - intros [= <- _]. by eapply cycle_outcome_truthy.
  - apply IH.
  - done.
Qed.

End Decided.

(** X6. A status query answered with a non-success HTTP status ends the
    poll at once: the poller throws the poll error with the status code
    and the excerpt of the body, or the status text when the excerpt is
    empty, and makes no further query. *)
Theorem poll_http_error_stops
    (readResponseText : Response -> Z -> Result string) (w : World)
    (generationId : jsval) (apiKey : string) (timeoutSeconds : Z) (tr : list event)
    (k : nat) (res : Response) (detail : string) :
  Z.of_nat k < maxAttempts_of timeoutSeconds ->
  (forall i : nat, (i < k)%nat ->
     keeps_waiting (w (count_fetches tr + i)%nat (status_request generationId apiKey))
     = true) ->
  w (count_fetches tr + k)%nat (status_request generationId apiKey) = Ok res ->
  ok res = false ->
  readResponseText res 4000 = Ok detail ->
  pollForCompletion readResponseText w generationId apiKey timeoutSeconds tr
  = (Throw (Error ("Leonardo poll error (" +:+ pretty (status res) +:+ "): "
                     +:+ (if decide (detail = "") then statusText res else detail))),
     tr ++ cycles (S k) generationId apiKey).
Proof.
  intros Hk Hwait Hreply Hok Hdetail.
  rewrite (poll_stops_with readResponseText w generationId apiKey k timeoutSeconds tr
             (Error ("Leonardo poll error (" +:+ pretty (status res) +:+ "): "
                       +:+ or_str detail (statusText res)))); try done.
  - unfold or_str. by destruct (String.eqb_spec detail ""), (decide (detail = "")).
  - rewrite Hreply. by apply cycle_outcome_http_error.
Qed.

Lemma poll_http_error_stops_witness :
  1 < maxAttempts_of 60
  /\ (forall i : nat, (i < 1)%nat ->
        keeps_waiting
          (status_script [generation_reply "PENDING" [];
                          reply_http 503 "Service Unavailable" ""]
             (count_fetches [] + i)%nat (status_request job1 "key"))
        = true)
  /\ pollForCompletion plain_readResponseText
       (status_script [generation_reply "PENDING" [];
                       reply_http 503 "Service Unavailable" ""])
       job1 "key" 60 []
     = (Throw (Error "Leonardo poll error (503): Service Unavailable"),
        cycles 2 job1 "key").
Proof.
  assert (forall i : nat, (i < 1)%nat ->
            keeps_waiting
              (status_script [generation_reply "PENDING" [];
                              reply_http 503 "Service Unavailable" ""]
                 (count_fetches [] + i)%nat (status_request job1 "key"))
            = true) as Hwait.
  { intros [|i] Hi; [reflexivity | lia]. }
  split; [reflexivity|]. split; [exact Hwait|].
  apply (poll_http_error_stops plain_readResponseText
           (status_script [generation_reply "PENDING" [];
                           reply_http 503 "Service Unavailable" ""])
           job1 "key" 60 [] 1
           {| ok := false; status := 503; statusText := "Service Unavailable";
              text := ""; json := Throw (Error "Unexpected token") |} "");
    [reflexivity | exact Hwait | reflexivity | reflexivity | reflexivity].
Defined.

(** X7. A successful status reply whose JSON object has no
    [generations_by_pk], or a falsy one, ends the poll at once with the
    error of an unexpected response shape. *)
Theorem poll_malformed_payload_stops
    (readResponseText : Response -> Z -> Result string) (w : World)
    (generationId : jsval) (apiKey : string) (timeoutSeconds : Z) (tr : list event)
    (k : nat) (res : Response) (data : gmap string jsval) :
  Z.of_nat k < maxAttempts_of timeoutSeconds ->
  (forall i : nat, (i < k)%nat ->
     keeps_waiting (w (count_fetches tr + i)%nat (status_request generationId apiKey))
     = true) ->
  w (count_fetches tr + k)%nat (status_request generationId apiKey) = Ok res ->
  ok res = true ->
  json res = Ok (VObj data) ->
  (data !! "generations_by_pk" = None
   \/ exists v, data !! "generations_by_pk" = Some v /\ truthy v = false) ->
  pollForCompletion readResponseText w generationId apiKey timeoutSeconds tr
  = (Throw (Error "Leonardo: unexpected poll response shape"),
     tr ++ cycles (S k) generationId apiKey).
Proof.
  intros Hk Hwait Hreply Hok Hjson Hshape.
  apply poll_stops_with; try done.
  rewrite Hreply. apply (cycle_outcome_shape _ res data); try done.
  by destruct Hshape as [-> | (v & -> & Hv)].
Qed.

Lemma poll_malformed_payload_stops_witness :
  0 < maxAttempts_of 60
  /\ status_script [reply_json (obj [("data", VNull)])] (count_fetches [] + 0)%nat
       (status_request job1 "key")
     = reply_json (obj [("data", VNull)])
  /\ pollForCompletion plain_readResponseText
       (status_script [reply_json (obj [("data", VNull)])]) job1 "key" 60 []
     = (Throw (Error "Leonardo: unexpected poll response shape"), cycles 1 job1 "key").
Proof.
  split; [reflexivity|]. split; [reflexivity|].
  apply (poll_malformed_payload_stops plain_readResponseText
           (status_script [reply_json (obj [("data", VNull)])]) job1 "key" 60 [] 0
           {| ok := true; status := 200; statusText := "OK"; text := "";
              json := Ok (obj [("data", VNull)]) |}
           (list_to_map [("data", VNull)]));
    [reflexivity | intros i Hi; lia | reflexivity | reflexivity | reflexivity
    | left; reflexivity].
Defined.

(** X8. An exception raised by a status query, by [fetch] itself or by
    [res.json()], is not retried: the poller throws that exception and
    makes no further query. *)
Theorem poll_exception_propagates
    (readResponseText : Response -> Z -> Result string) (w : World)
    (generationId : jsval) (apiKey : string) (timeoutSeconds : Z) (tr : list event)
    (k : nat) (e : exn) :
  Z.of_nat k < maxAttempts_of timeoutSeconds ->
  (forall i : nat, (i < k)%nat ->
     keeps_waiting (w (count_fetches tr + i)%nat (status_request generationId apiKey))
     = true) ->
  (w (count_fetches tr + k)%nat (status_request generationId apiKey) = Throw e
   \/ exists res,
        w (count_fetches tr + k)%nat (status_request generationId apiKey) = Ok res
        /\ ok res = true /\ json res = Throw e) ->
  pollForCompletion readResponseText w generationId apiKey timeoutSeconds tr
  = (Throw e, tr ++ cycles (S k) generationId apiKey).
Proof.
  intros Hk Hwait Hreply. apply poll_stops_with; try done.
  destruct Hreply as [-> | (res & -> & Hok & Hjson)].
  - apply cycle_outcome_rejected.
  - by apply cycle_outcome_unparsed.
Qed.

Lemma poll_exception_propagates_witness :
  0 < maxAttempts_of 60
  /\ status_script [Throw (NonError "socket hang up")] (count_fetches [] + 0)%nat
       (status_request job1 "key")
     = Throw (NonError "socket hang up")
  /\ pollForCompletion plain_readResponseText
       (status_script [Throw (NonError "socket hang up")]) job1 "key" 60 []
     = (Throw (NonError "socket hang up"), cycles 1 job1 "key").
Proof.
  split; [reflexivity|]. split; [reflexivity|].
  apply (poll_exception_propagates plain_readResponseText
           (status_script [Throw (NonError "socket hang up")]) job1 "key" 60 [] 0
           (NonError "socket hang up"));
    [reflexivity | intros i Hi; lia | left; reflexivity].
Defined.

(** X9. A COMPLETE reply whose image list has a null entry makes the
    poller throw a TypeError, whatever URLs the other images carry: no
    part of the list is returned. *)
Theorem poll_null_image_throws
    (readResponseText : Response -> Z -> Result string) (w : World)
    (generationId : jsval) (apiKey : string) (timeoutSeconds : Z) (tr : list event)
    (k : nat) (generation : gmap string jsval) (items : list jsval) :
  Z.of_nat k < maxAttempts_of timeoutSeconds ->
  (forall i : nat, (i < k)%nat ->
     keeps_waiting (w (count_fetches tr + i)%nat (status_request generationId apiKey))
     = true) ->
  generation_of (w (count_fetches tr + k)%nat (status_request generationId apiKey))
  = Some generation ->
  has_status generation "COMPLETE" = true ->
  generation !! "generated_images" = Some (VArr items) ->
  VNull ∈ items ->
  VUndef ∉ items ->
  pollForCompletion readResponseText w generationId apiKey timeoutSeconds tr
  = (Throw (TypeError (ReadOfNullish VNull "url")),
     tr ++ cycles (S k) generationId apiKey).
Proof.
  intros Hk Hwait Hgen Hst Himages Hnull Hundef.
  apply poll_stops_with; try done.
  destruct (generation_of_Some _ _ Hgen) as (res & data & -> & Hok & Hjson & Hdata).
  apply (cycle_outcome_images _ res data generation (VArr items)); try done.
  by apply map_result_null_entry.
Qed.

Lemma poll_null_image_throws_witness :
  0 < maxAttempts_of 60
  /\ generation_of
       (status_script
          [reply_json (obj [("generations_by_pk",
                             obj [("status", VStr "COMPLETE");
                                  ("generated_images",
                                   VArr [VObj (image "1" "a"); VNull])])])]
          (count_fetches [] + 0)%nat (status_request job1 "key"))
     = Some (list_to_map [("status", VStr "COMPLETE");
                          ("generated_images", VArr [VObj (image "1" "a"); VNull])])
  /\ pollForCompletion plain_readResponseText
       (status_script
          [reply_json (obj [("generations_by_pk",
                             obj [("status", VStr "COMPLETE");
                                  ("generated_images",
                                   VArr [VObj (image "1" "a"); VNull])])])])
       job1 "key" 60 []
     = (Throw (TypeError (ReadOfNullish VNull "url")), cycles 1 job1 "key").
Proof.
  split; [reflexivity|]. split; [reflexivity|].
  apply (poll_null_image_throws plain_readResponseText
           (status_script
              [reply_json (obj [("generations_by_pk",
                                 obj [("status", VStr "COMPLETE");
                                      ("generated_images",
                                       VArr [VObj (image "1" "a"); VNull])])])])
           job1 "key" 60 [] 0
           (list_to_map [("status", VStr "COMPLETE");
                         ("generated_images", VArr [VObj (image "1" "a"); VNull])])
           [VObj (image "1" "a"); VNull]);
    [reflexivity | intros i Hi; lia | reflexivity | reflexivity | reflexivity | |].
  - apply list_elem_of_further, list_elem_of_here.
  - intros Hin. apply elem_of_cons in Hin as [Hin | Hin]; [discriminate|].
    apply elem_of_cons in Hin as [Hin | Hin]; [discriminate|].
    by apply elem_of_nil in Hin.
Defined.

(** ** The budget of the poller *)

(** X10. Whatever the service answers, a poll with a timeout that is not
    negative adds whole turns to the trace, no more than its budget: one
    sleep of 2000 ms per status query, at most 30 queries, and in all
    never more sleep than the timeout. *)
Theorem poll_never_outlasts_timeout
    (readResponseText : Response -> Z -> Result string) (w : World)
    (generationId : jsval) (apiKey : string) (timeoutSeconds : Z) (tr : list event) :
  0 <= timeoutSeconds ->
  exists polled : list event,
    snd (pollForCompletion readResponseText w generationId apiKey timeoutSeconds tr)
    = tr ++ polled
    /\ slept_ms polled = 2000 * Z.of_nat (status_queries polled)
    /\ (status_queries polled <= 30)%nat
    /\ Z.of_nat (status_queries polled) <= timeoutSeconds * 1000 / 2000
    /\ slept_ms polled <= timeoutSeconds * 1000.
Proof.
  intros Ht.
  destruct (poll_loop_trace readResponseText w generationId apiKey
              (loop_trips 0 (maxAttempts_of timeoutSeconds))
              (maxAttempts_of timeoutSeconds) tr) as (n & Hn & _ & Htr).
  exists (cycles n generationId apiKey). split; [exact Htr|].
  rewrite slept_ms_cycles, status_queries_cycles.
  pose proof (loop_trips_le timeoutSeconds).
  assert (0 <= timeoutSeconds * 1000 / 2000) by (apply Z.div_pos; lia).
  assert (2000 * (timeoutSeconds * 1000 / 2000) <= timeoutSeconds * 1000)
    by (apply Z.mul_div_le; lia).
  assert (Z.of_nat n <= timeoutSeconds * 1000 / 2000).
  { unfold loop_trips, maxAttempts_of, POLL_INTERVAL_MS, POLL_MAX_ATTEMPTS in Hn. lia. }
  repeat split; lia.
Qed.

Lemma poll_never_outlasts_timeout_witness :
  0 <= 7
  /\ exists polled : list event,
       snd (pollForCompletion plain_readResponseText (status_script []) job1 "key" 7 [])
       = [] ++ polled
       /\ slept_ms polled = 2000 * Z.of_nat (status_queries polled)
       /\ (status_queries polled <= 30)%nat
       /\ Z.of_nat (status_queries polled) <= 7 * 1000 / 2000
       /\ slept_ms polled <= 7 * 1000.
Proof.
  split; [lia|].
  apply (poll_never_outlasts_timeout plain_readResponseText (status_script []) job1
           "key" 7 []). lia.
Defined.

(** X11. The hard cap: a poll with any timeout of 60 seconds or more
    runs exactly as the poll with 60 seconds does. *)
Theorem poll_timeout_is_capped
    (readResponseText : Response -> Z -> Result string) (w : World)
    (generationId : jsval) (apiKey : string) (timeoutSeconds : Z) (tr : list event) :
  60 <= timeoutSeconds ->
  pollForCompletion readResponseText w generationId apiKey timeoutSeconds tr
  = pollForCompletion readResponseText w generationId apiKey 60 tr.
Proof.
  intros Ht. unfold pollForCompletion.
  assert (maxAttempts_of timeoutSeconds = maxAttempts_of 60) as ->; [|done].
  unfold maxAttempts_of, POLL_INTERVAL_MS, POLL_MAX_ATTEMPTS.
  assert (30 <= timeoutSeconds * 1000 / 2000) by (apply Z.div_le_lower_bound; lia).
  change (60 * 1000 / 2000) with 30. lia.
Qed.

Lemma poll_timeout_is_capped_witness :
  60 <= 3600
  /\ pollForCompletion plain_readResponseText (status_script []) job1 "key" 3600 []
     = pollForCompletion plain_readResponseText (status_script []) job1 "key" 60 [].
Proof.
  split; [lia|].
  apply (poll_timeout_is_capped plain_readResponseText (status_script []) job1 "key"
           3600 []). lia.
Defined.

(** X12. A poll with a timeout under two seconds has no attempt at all:
    it throws the timeout error at once, without a sleep or a query, even
    if the job is already complete. *)
Theorem poll_short_timeout_never_polls
    (readResponseText : Response -> Z -> Result string) (w : World)
    (generationId : jsval) (apiKey : string) (timeoutSeconds : Z) (tr : list event) :
  0 <= timeoutSeconds < 2 ->
  pollForCompletion readResponseText w generationId apiKey timeoutSeconds tr
  = (Throw (Error "Leonardo generation timed out after 0 seconds"), tr).
Proof.
  intros Ht. unfold pollForCompletion.
  assert (maxAttempts_of timeoutSeconds = 0) as ->; [|done].
  unfold maxAttempts_of, POLL_INTERVAL_MS, POLL_MAX_ATTEMPTS.
  assert (timeoutSeconds * 1000 / 2000 = 0) as -> by (apply Z.div_small; lia).
  done.
Qed.

Lemma poll_short_timeout_never_polls_witness :
  0 <= 1 < 2
  /\ pollForCompletion plain_readResponseText
       (status_script [generation_reply "COMPLETE" abc_images]) job1 "key" 1 []
     = (Throw (Error "Leonardo generation timed out after 0 seconds"), []).
Proof.
  split; [lia|].
  apply (poll_short_timeout_never_polls plain_readResponseText
           (status_script [generation_reply "COMPLETE" abc_images]) job1 "key" 1 []).
  lia.
Defined.

(** X13. Every URL that the poller returns is truthy: the list holds no
    empty string, null or missing URL, whatever the service answered. *)
Theorem poll_returns_truthy_urls
    (readResponseText : Response -> Z -> Result string) (w : World)
    (generationId : jsval) (apiKey : string) (timeoutSeconds : Z) (tr tr' : list event)
    (urls : list jsval) :
  pollForCompletion readResponseText w generationId apiKey timeoutSeconds tr
  = (Ok urls, tr') ->
  Forall (fun u => truthy u = true) urls.
Proof. unfold pollForCompletion. apply poll_loop_truthy. Qed.

Lemma poll_returns_truthy_urls_witness :
  pollForCompletion plain_readResponseText
    (status_script [generation_reply "COMPLETE" abc_images]) job1 "key" 60 []
  = (Ok [VStr "a"; VStr "b"], cycles 1 job1 "key")
  /\ Forall (fun u => truthy u = true) [VStr "a"; VStr "b"].
Proof.
  split; [reflexivity|].
  apply (poll_returns_truthy_urls plain_readResponseText
           (status_script [generation_reply "COMPLETE" abc_images]) job1 "key" 60 []
           (cycles 1 job1 "key") [VStr "a"; VStr "b"]).
  reflexivity.
Defined.

(** X14. A [generations_by_pk] that is truthy but not an object (true, a
    number, a string, an array) is not reported as malformed: it has no
    status, so the turn ends like a PENDING one and the loop goes on. *)
Theorem poll_odd_generation_keeps_waiting
    (readResponseText : Response -> Z -> Result string) (w : World)
    (generationId : jsval) (apiKey : string) (left : nat) (maxAttempts : Z)
    (tr : list event) (res : Response) (data : gmap string jsval) (v : jsval) :
  w (count_fetches tr) (status_request generationId apiKey) = Ok res ->
  ok res = true ->
  json res = Ok (VObj data) ->
  data !! "generations_by_pk" = Some v ->
  truthy v = true ->
  (forall generation, v <> VObj generation) ->
  poll_loop readResponseText w (S left) generationId apiKey maxAttempts tr
  = poll_loop readResponseText w left generationId apiKey maxAttempts
      (tr ++ cycle generationId apiKey).
Proof.
  intros Hreply Hok Hjson Hdata Htruthy Hobj.
  rewrite poll_loop_S, Hreply.
  assert (cycle_outcome readResponseText (Ok res) = Ok None) as ->; [|done].
  unfold cycle_outcome, poll_cycle, sleep, fetch, lift, throw.
  unfold mbind, M_bind, bind, mret, M_ret, ret; simpl.
  rewrite Hok, Hjson. simpl. rewrite Hdata. simpl. rewrite Htruthy. simpl.
  destruct v; simpl; try done. by destruct (Hobj fields).
Qed.

Lemma poll_odd_generation_keeps_waiting_witness :
  status_script [reply_json (obj [("generations_by_pk", VBool true)]);
                 generation_reply "FAILED" []]
    (count_fetches []) (status_request job1 "key")
  = reply_json (obj [("generations_by_pk", VBool true)])
  /\ truthy (VBool true) = true
  /\ (forall generation, VBool true <> VObj generation)
  /\ poll_loop plain_readResponseText
       (status_script [reply_json (obj [("generations_by_pk", VBool true)]);
                       generation_reply "FAILED" []])
       2 job1 "key" 2 []
     = (Throw (Error "Leonardo generation failed"), cycles 2 job1 "key").
Proof.
  assert (forall generation, VBool true <> VObj generation) as Hobj
    by (intros generation; discriminate).
  split; [reflexivity|]. split; [reflexivity|]. split; [exact Hobj|].
  rewrite (poll_odd_generation_keeps_waiting plain_readResponseText
             (status_script [reply_json (obj [("generations_by_pk", VBool true)]);
                             generation_reply "FAILED" []])
             job1 "key" 1 2 []
             {| ok := true; status := 200; statusText := "OK"; text := "";
                json := Ok (obj [("generations_by_pk", VBool true)]) |}
             (list_to_map [("generations_by_pk", VBool true)]) (VBool true));
    [reflexivity | reflexivity | reflexivity | reflexivity | reflexivity
    | reflexivity | exact Hobj].
Defined.

(** ** Other runs of the tool *)

Lemma count_fetches_snoc_fetch (tr : list event) (req : Request) :
  count_fetches (tr ++ [EvFetch req]) = S (count_fetches tr).
Proof. rewrite count_fetches_app. unfold count_fetches; simpl. lia. Qed.

(** X15. When reading the prompt or the style throws, [execute] sends
    nothing: it returns the error with the message of the exception and
    the trace is unchanged. *)
Theorem execute_unreadable_arguments_send_nothing
    (readStringParam : jsval -> string -> bool -> Result (option string))
    (readResponseText : Response -> Z -> Result string)
    (DEFAULT_TIMEOUT_SECONDS : Z) (ToolResult : Type) (jsonResult : payload -> ToolResult)
    (typeErrorMessage : engine_fault -> string) (w : World)
    (apiKey : string) (args : jsval) (tr : list event) (e : exn) :
  (readStringParam args "prompt" true = Throw e
   \/ exists (fields : gmap string jsval) (read_prompt : option string),
        args = VObj fields
        /\ readStringParam args "prompt" true = Ok read_prompt
        /\ readStringParam args "preset_style" false = Throw e) ->
  execute readStringParam readResponseText DEFAULT_TIMEOUT_SECONDS ToolResult
    jsonResult typeErrorMessage w apiKey args tr
  = (Ok (jsonResult (Failed (error_text typeErrorMessage e) [])), tr).
Proof.
  intros [Hprompt | (fields & read_prompt & -> & Hprompt & Hstyle)];
    unfold execute, try_catch, lift, throw, fetch;
    unfold mbind, M_bind, bind, mret, M_ret, ret; simpl.
  - by rewrite Hprompt.
  - by rewrite Hprompt, Hstyle.
Qed.

Lemma execute_unreadable_arguments_send_nothing_witness :
  (plain_readStringParam (obj [("width", VNum 512)]) "prompt" true
   = Throw (Error "prompt required")
   \/ exists (fields : gmap string jsval) (read_prompt : option string),
        obj [("width", VNum 512)] = VObj fields
        /\ plain_readStringParam (obj [("width", VNum 512)]) "prompt" true = Ok read_prompt
        /\ plain_readStringParam (obj [("width", VNum 512)]) "preset_style" false
           = Throw (Error "prompt required"))
  /\ run_execute (scripted []) "key" (obj [("width", VNum 512)])
     = (Ok (Failed "prompt required" []), []).
Proof.
  assert (plain_readStringParam (obj [("width", VNum 512)]) "prompt" true
          = Throw (Error "prompt required")
          \/ exists (fields : gmap string jsval) (read_prompt : option string),
               obj [("width", VNum 512)] = VObj fields
               /\ plain_readStringParam (obj [("width", VNum 512)]) "prompt" true
                  = Ok read_prompt
               /\ plain_readStringParam (obj [("width", VNum 512)]) "preset_style" false
                  = Throw (Error "prompt required")) as Hread
    by (left; reflexivity).
  split; [exact Hread|].
  apply (execute_unreadable_arguments_send_nothing plain_readStringParam
           plain_readResponseText 30 payload id plain_typeErrorMessage (scripted [])
           "key" (obj [("width", VNum 512)]) [] (Error "prompt required") Hread).
Defined.

(** X16. When the submission itself is rejected (a transport error or
    the abort of its signal), [execute] returns the error with the
    message of the exception; the submission is the only request. *)
Theorem execute_transport_failure
    (readStringParam : jsval -> string -> bool -> Result (option string))
    (readResponseText : Response -> Z -> Result string)
    (DEFAULT_TIMEOUT_SECONDS : Z) (ToolResult : Type) (jsonResult : payload -> ToolResult)
    (typeErrorMessage : engine_fault -> string) (w : World)
    (apiKey : string) (fields : gmap string jsval) (read_prompt read_style : option string)
    (tr : list event) (e : exn) :
  readStringParam (VObj fields) "prompt" true = Ok read_prompt ->
  readStringParam (VObj fields) "preset_style" false = Ok read_style ->
  let post := submission_request apiKey DEFAULT_TIMEOUT_SECONDS
                (body_of fields read_prompt read_style) in
  w (count_fetches tr) post = Throw e ->
  execute readStringParam readResponseText DEFAULT_TIMEOUT_SECONDS ToolResult
    jsonResult typeErrorMessage w apiKey (VObj fields) tr
  = (Ok (jsonResult (Failed (match e with
                             | Error message => message
                             | TypeError fault => typeErrorMessage fault
                             | NonError rendering => rendering
                             end) [])),
     tr ++ [EvFetch post]).
Proof.
  intros Hprompt Hstyle post Hreply.
  rewrite (execute_submits _ _ _ _ _ _ _ _ _ _ _ Hprompt Hstyle).
  cbv zeta. fold post. by rewrite Hreply.
Qed.

Lemma execute_transport_failure_witness :
  plain_readStringParam (VObj bare_fields) "prompt" true = Ok (Some "a cat")
  /\ plain_readStringParam (VObj bare_fields) "preset_style" false = Ok None
  /\ unreachable (count_fetches []) bare_post = Throw (Error "fetch failed")
  /\ run_execute unreachable "key" (VObj bare_fields)
     = (Ok (Failed "fetch failed" []), [] ++ [EvFetch bare_post]).
Proof.
  split; [reflexivity|]. split; [reflexivity|]. split; [reflexivity|].
  apply (execute_transport_failure plain_readStringParam plain_readResponseText 30
           payload id plain_typeErrorMessage unreachable "key" bare_fields
           (Some "a cat") None [] (Error "fetch failed")); reflexivity.
Defined.

(** X17. A job identifier that is present but falsy (an empty string,
    0, false, null) counts as missing: [execute] returns the error that
    the response has no generationId and does not poll. *)
Theorem execute_falsy_job_id
    (readStringParam : jsval -> string -> bool -> Result (option string))
    (readResponseText : Response -> Z -> Result string)
    (DEFAULT_TIMEOUT_SECONDS : Z) (ToolResult : Type) (jsonResult : payload -> ToolResult)
    (typeErrorMessage : engine_fault -> string) (w : World)
    (apiKey : string) (fields : gmap string jsval) (read_prompt read_style : option string)
    (tr : list event) (res : Response) (data job : gmap string jsval) (v : jsval) :
  readStringParam (VObj fields) "prompt" true = Ok read_prompt ->
  readStringParam (VObj fields) "preset_style" false = Ok read_style ->
  let post := submission_request apiKey DEFAULT_TIMEOUT_SECONDS
                (body_of fields read_prompt read_style) in
  w (count_fetches tr) post = Ok res ->
  ok res = true ->
  json res = Ok (VObj data) ->
  data !! "sdGenerationJob" = Some (VObj job) ->
  job !! "generationId" = Some v ->
  truthy v = false ->
  execute readStringParam readResponseText DEFAULT_TIMEOUT_SECONDS ToolResult
    jsonResult typeErrorMessage w apiKey (VObj fields) tr
  = (Ok (jsonResult (Failed "Leonardo: no generationId in response" [])),
     tr ++ [EvFetch post]).
Proof.
  intros Hprompt Hstyle post Hreply Hok Hjson Hjob Hid Hfalsy.
  rewrite (execute_submits _ _ _ _ _ _ _ _ _ _ _ Hprompt Hstyle).
  cbv zeta. fold post. rewrite Hreply, Hok, Hjson. simpl.
  rewrite Hjob. unfold get_prop_opt. simpl. rewrite Hid. simpl. by rewrite Hfalsy.
Qed.

Lemma execute_falsy_job_id_witness :
  plain_readStringParam (VObj bare_fields) "prompt" true = Ok (Some "a cat")
  /\ plain_readStringParam (VObj bare_fields) "preset_style" false = Ok None
  /\ truthy (VStr "") = false
  /\ run_execute (fun _ _ => submitted "") "key" (VObj bare_fields)
     = (Ok (Failed "Leonardo: no generationId in response" []),
        [] ++ [EvFetch bare_post]).
Proof.
  split; [reflexivity|]. split; [reflexivity|]. split; [reflexivity|].
  apply (execute_falsy_job_id plain_readStringParam plain_readResponseText 30
           payload id plain_typeErrorMessage (fun _ _ => submitted "") "key" bare_fields
           (Some "a cat") None []
           {| ok := true; status := 200; statusText := "OK"; text := "";
              json := Ok (obj [("sdGenerationJob", obj [("generationId", VStr "")])]) |}
           (list_to_map [("sdGenerationJob", obj [("generationId", VStr "")])])
           (list_to_map [("generationId", VStr "")]) (VStr "")); reflexivity.
Defined.

(** X18. The whole run that succeeds: the submission returns a job
    identifier, some status queries keep the poller waiting, and one
    reports COMPLETE with images of which some URL is usable.  [execute]
    then returns the identifier, the usable URLs in order and their
    number, after the submission and one turn per status query. *)
Theorem execute_returns_generated_images
    (readStringParam : jsval -> string -> bool -> Result (option string))
    (readResponseText : Response -> Z -> Result string)
    (DEFAULT_TIMEOUT_SECONDS : Z) (ToolResult : Type) (jsonResult : payload -> ToolResult)
    (typeErrorMessage : engine_fault -> string) (w : World)
    (apiKey : string) (fields : gmap string jsval) (read_prompt read_style : option string)
    (tr : list event) (generationId : jsval) (k : nat)
    (generation : gmap string jsval) (images : list (gmap string jsval)) :
  readStringParam (VObj fields) "prompt" true = Ok read_prompt ->
  readStringParam (VObj fields) "preset_style" false = Ok read_style ->
  let post := submission_request apiKey DEFAULT_TIMEOUT_SECONDS
                (body_of fields read_prompt read_style) in
  job_id_of (w (count_fetches tr) post) = Some generationId ->
  (k < 30)%nat ->
  (forall i : nat, (i < k)%nat ->
     keeps_waiting (w (S (count_fetches tr) + i)%nat
                      (status_request generationId apiKey)) = true) ->
  generation_of (w (S (count_fetches tr) + k)%nat (status_request generationId apiKey))
  = Some generation ->
  has_status generation "COMPLETE" = true ->
  generation !! "generated_images" = Some (image_array images) ->
  usable_urls images <> [] ->
  execute readStringParam readResponseText DEFAULT_TIMEOUT_SECONDS ToolResult
    jsonResult typeErrorMessage w apiKey (VObj fields) tr
  = (Ok (jsonResult (Generated generationId (usable_urls images)
                       (length (usable_urls images)))),
     tr ++ EvFetch post :: cycles (S k) generationId apiKey).
Proof.
  intros Hprompt Hstyle post Hjob Hk Hwait Hgen Hst Himages Husable.
  rewrite (execute_polls _ _ _ _ _ _ _ _ _ _ _ Hprompt Hstyle tr generationId Hjob).
  fold post.
  rewrite (poll_loop_decided _ _ _ _ k).
  - rewrite count_fetches_snoc_fetch.
    rewrite (cycle_outcome_complete _ _ generation images) by done.
    destruct (usable_urls images) as [|u urls] eqn:E; [done|].
    by rewrite <- app_assoc.
  - change (maxAttempts_of 60) with 30. lia.
  - intros i Hi. rewrite count_fetches_snoc_fetch. by apply Hwait.
Qed.

Lemma execute_returns_generated_images_witness :
  plain_readStringParam (VObj bare_fields) "prompt" true = Ok (Some "a cat")
  /\ plain_readStringParam (VObj bare_fields) "preset_style" false = Ok None
  /\ job_id_of
       (scripted [generation_reply "PENDING" []; generation_reply "COMPLETE" abc_images]
          (count_fetches []) bare_post)
     = Some job1
  /\ (forall i : nat, (i < 1)%nat ->
        keeps_waiting
          (scripted [generation_reply "PENDING" [];
                     generation_reply "COMPLETE" abc_images]
             (S (count_fetches []) + i)%nat (status_request job1 "key"))
        = true)
  /\ run_execute
       (scripted [generation_reply "PENDING" []; generation_reply "COMPLETE" abc_images])
       "key" (VObj bare_fields)
     = (Ok (Generated job1 [VStr "a"; VStr "b"] 2),
        [] ++ EvFetch bare_post :: cycles 2 job1 "key").
Proof.
  assert (forall i : nat, (i < 1)%nat ->
            keeps_waiting
              (scripted [generation_reply "PENDING" [];
                         generation_reply "COMPLETE" abc_images]
                 (S (count_fetches []) + i)%nat (status_request job1 "key"))
            = true) as Hwait.
  { intros [|i] Hi; [reflexivity | lia]. }
  split; [reflexivity|]. split; [reflexivity|]. split; [reflexivity|].
  split; [exact Hwait|].
  apply (execute_returns_generated_images plain_readStringParam plain_readResponseText
           30 payload id plain_typeErrorMessage
           (scripted [generation_reply "PENDING" [];
                      generation_reply "COMPLETE" abc_images])
           "key" bare_fields (Some "a cat") None [] job1 1
           (complete_generation abc_images) abc_images);
    [reflexivity | reflexivity | reflexivity | lia | exact Hwait | reflexivity
    | reflexivity | reflexivity | discriminate].
Defined.

(** X19. Whatever the poller throws reaches the caller as a result:
    once the submission has returned a job identifier, [execute] returns
    the error whose text is the message of the poller's exception (for a
    TypeError the message of the engine, for a value that is not an Error
    its string), with no image URL, and adds nothing to the trace of the
    poll. *)
Theorem execute_reports_poll_exception
    (readStringParam : jsval -> string -> bool -> Result (option string))
    (readResponseText : Response -> Z -> Result string)
    (DEFAULT_TIMEOUT_SECONDS : Z) (ToolResult : Type) (jsonResult : payload -> ToolResult)
    (typeErrorMessage : engine_fault -> string) (w : World)
    (apiKey : string) (fields : gmap string jsval) (read_prompt read_style : option string)
    (tr tr' : list event) (generationId : jsval) (e : exn) :
  readStringParam (VObj fields) "prompt" true = Ok read_prompt ->
  readStringParam (VObj fields) "preset_style" false = Ok read_style ->
  let post := submission_request apiKey DEFAULT_TIMEOUT_SECONDS
                (body_of fields read_prompt read_style) in
  job_id_of (w (count_fetches tr) post) = Some generationId ->
  pollForCompletion readResponseText w generationId apiKey 60 (tr ++ [EvFetch post])
  = (Throw e, tr') ->
  execute readStringParam readResponseText DEFAULT_TIMEOUT_SECONDS ToolResult
    jsonResult typeErrorMessage w apiKey (VObj fields) tr
  = (Ok (jsonResult (Failed (match e with
                             | Error message => message
                             | TypeError fault => typeErrorMessage fault
                             | NonError rendering => rendering
                             end) [])),
     tr').
Proof.
  intros Hprompt Hstyle post Hjob Hpoll.
  rewrite (execute_polls _ _ _ _ _ _ _ _ _ _ _ Hprompt Hstyle tr generationId Hjob).
  fold post. by rewrite Hpoll.
Qed.

Lemma execute_reports_poll_exception_witness :
  plain_readStringParam (VObj bare_fields) "prompt" true = Ok (Some "a cat")
  /\ plain_readStringParam (VObj bare_fields) "preset_style" false = Ok None
  /\ job_id_of
       (scripted [reply_json (obj [("generations_by_pk",
                                    obj [("status", VStr "COMPLETE");
                                         ("generated_images", VArr [VNull])])])]
          (count_fetches []) bare_post)
     = Some job1
  /\ pollForCompletion plain_readResponseText
       (scripted [reply_json (obj [("generations_by_pk",
                                    obj [("status", VStr "COMPLETE");
                                         ("generated_images", VArr [VNull])])])])
       job1 "key" 60 ([] ++ [EvFetch bare_post])
     = (Throw (TypeError (ReadOfNullish VNull "url")),
        EvFetch bare_post :: cycles 1 job1 "key")
  /\ run_execute
       (scripted [reply_json (obj [("generations_by_pk",
                                    obj [("status", VStr "COMPLETE");
                                         ("generated_images", VArr [VNull])])])])
       "key" (VObj bare_fields)
     = (Ok (Failed "Cannot read properties of null (reading 'url')" []),
        EvFetch bare_post :: cycles 1 job1 "key").
Proof.
  split; [reflexivity|]. split; [reflexivity|]. split; [reflexivity|].
  split; [reflexivity|].
  apply (execute_reports_poll_exception plain_readStringParam plain_readResponseText
           30 payload id plain_typeErrorMessage
           (scripted [reply_json (obj [("generations_by_pk",
                                        obj [("status", VStr "COMPLETE");
                                             ("generated_images", VArr [VNull])])])])
           "key" bare_fields (Some "a cat") None []
           (EvFetch bare_post :: cycles 1 job1 "key") job1
           (TypeError (ReadOfNullish VNull "url"))); reflexivity.
Defined.

(** X20. Whatever the arguments, the helpers and the service do, a run
    of [execute] sends either nothing, or one submission followed by
    turns of the poller, at most 30, that all query one and the same job:
    no status query comes before the submission and no second submission
    is made. *)
Theorem execute_one_job_per_run
    (readStringParam : jsval -> string -> bool -> Result (option string))
    (readResponseText : Response -> Z -> Result string)
    (DEFAULT_TIMEOUT_SECONDS : Z) (ToolResult : Type) (jsonResult : payload -> ToolResult)
    (typeErrorMessage : engine_fault -> string) (w : World)
    (apiKey : string) (args : jsval) (tr : list event) :
  exists added : list event,
    snd (execute readStringParam readResponseText DEFAULT_TIMEOUT_SECONDS ToolResult
           jsonResult typeErrorMessage w apiKey args tr)
    = tr ++ added
    /\ (submissions added <= 1)%nat
    /\ (added = []
        \/ exists (b : GenerationBody) (n : nat) (generationId : jsval),
             (n <= 30)%nat
             /\ added
                = EvFetch {| method := POST; url := Generations; bearer := apiKey;
                             body := Some b;
                             signal_ms := DEFAULT_TIMEOUT_SECONDS * 1000 |}
                    :: cycles n generationId apiKey
             /\ status_queries added = n
             /\ (forall req, EvFetch req ∈ cycles n generationId apiKey ->
                   req = {| method := GET; url := GenerationById generationId;
                            bearer := apiKey; body := None; signal_ms := 15000 |})).
Proof.
  destruct (execute_added readStringParam readResponseText DEFAULT_TIMEOUT_SECONDS
              ToolResult jsonResult typeErrorMessage w apiKey args tr)
    as (added & Htr & [Hadded | (b & n & generationId & Hadded & Hn)]).
  - exists added. split; [exact Htr|]. subst added. split; [unfold submissions; simpl; lia | by left].
  - exists added. split; [exact Htr|]. subst added. split.
    + change (EvFetch (submission_request apiKey DEFAULT_TIMEOUT_SECONDS b)
                :: cycles n generationId apiKey)
        with ([EvFetch (submission_request apiKey DEFAULT_TIMEOUT_SECONDS b)]
                ++ cycles n generationId apiKey).
      rewrite submissions_app, submissions_cycles. unfold submissions; simpl. lia.
    + right. exists b, n, generationId. split; [exact Hn|]. split; [done|]. split.
      * change (EvFetch (submission_request apiKey DEFAULT_TIMEOUT_SECONDS b)
                  :: cycles n generationId apiKey)
          with ([EvFetch (submission_request apiKey DEFAULT_TIMEOUT_SECONDS b)]
                  ++ cycles n generationId apiKey).
        rewrite status_queries_app, status_queries_cycles. done.
      * intros req [i Hi]%list_elem_of_lookup.
        by apply cycles_lookup_fetch in Hi as [-> _].
Qed.

(** ** The result of every run *)

Section Verdict.

Variable readStringParam : jsval -> string -> bool -> Result (option string).
Variable readResponseText : Response -> Z -> Result string.
Variable DEFAULT_TIMEOUT_SECONDS : Z.
Variable ToolResult : Type.
Variable jsonResult : payload -> ToolResult.
Variable typeErrorMessage : engine_fault -> string.
Variable w : World.

Variable apiKey : string.
Variable fields : gmap string jsval.
Variables read_prompt read_style : option string.
Hypothesis prompt_read : readStringParam (VObj fields) "prompt" true = Ok read_prompt.
Hypothesis style_read : readStringParam (VObj fields) "preset_style" false = Ok read_style.

(** Once the arguments are read, the result is the success exactly when
    the submission gave a job identifier and the poll for it returned;
    otherwise it is the failure, with the message of the poller's
    exception when the poll was started. *)
Lemma execute_verdict (tr : list event) :
  let post := submission_request apiKey DEFAULT_TIMEOUT_SECONDS
                (body_of fields read_prompt read_style) in
  exists (p : payload) (tr' : list event),
    execute readStringParam readResponseText DEFAULT_TIMEOUT_SECONDS ToolResult
      jsonResult typeErrorMessage w apiKey (VObj fields) tr
    = (Ok (jsonResult p), tr')
    /\ match p with
       | Generated generationId imageUrls count =>
           job_id_of (w (count_fetches tr) post) = Some generationId
           /\ pollForCompletion readResponseText w generationId apiKey 60
                (tr ++ [EvFetch post])
              = (Ok imageUrls, tr')
           /\ count = length imageUrls
       | Failed error imageUrls =>
           imageUrls = []
           /\ ((job_id_of (w (count_fetches tr) post) = None
                /\ tr' = tr ++ [EvFetch post])
               \/ exists generationId e,
                    job_id_of (w (count_fetches tr) post) = Some generationId
                    /\ pollForCompletion readResponseText w generationId apiKey 60
                         (tr ++ [EvFetch post])
                       = (Throw e, tr')
                    /\ error = error_text typeErrorMessage e)
       end.
Proof.
  intros post.
  destruct (job_id_of (w (count_fetches tr) post)) as [generationId|] eqn:Hjob.
  - rewrite (execute_polls _ _ _ _ _ _ _ _ _ _ _ prompt_read style_read tr
               generationId Hjob).
    fold post.
    destruct (pollForCompletion _ _ _ _ _ _) as [[urls|e] tr'] eqn:Hpoll.
    + by eexists (Generated generationId urls (length urls)), tr'.
    + eexists (Failed _ []), tr'. split; [reflexivity|]. split; [done|].
      right. by exists generationId, e.
  - rewrite (execute_submits _ _ _ _ _ _ _ _ _ _ _ prompt_read style_read).
    cbv zeta. fold post. unfold job_id_of in Hjob.
    assert (forall msg, exists (p : payload) (tr' : list event),
              (Ok (jsonResult (Failed msg [])), tr ++ [EvFetch post])
              = (Ok (jsonResult p), tr')
              /\ match p with
                 | Generated generationId imageUrls count =>
                     @None jsval = Some generationId
                     /\ pollForCompletion readResponseText w generationId apiKey 60
                          (tr ++ [EvFetch post])
                        = (Ok imageUrls, tr')
                     /\ count = length imageUrls
                 | Failed error imageUrls =>
                     imageUrls = []
                     /\ ((@None jsval = None /\ tr' = tr ++ [EvFetch post])
                         \/ exists generationId e,
                              @None jsval = Some generationId
                              /\ pollForCompletion readResponseText w generationId
                                   apiKey 60 (tr ++ [EvFetch post])
                                 = (Throw e, tr')
                              /\ error = error_text typeErrorMessage e)
                 end) as Hfailed.
    { intros msg. eexists (Failed msg []), _. split; [reflexivity|].
      split; [done|]. by left. }
    destruct (w (count_fetches tr) post) as [res|e]; [|apply Hfailed].
    destruct res as [[] st stt txt js]; simpl in *;
      [|destruct (readResponseText _ _); apply Hfailed].
    destruct js as [data|e]; [|apply Hfailed].
    destruct data; simpl; try apply Hfailed.
    destruct (_ !! "sdGenerationJob") as [[]|]; simpl; try apply Hfailed.
    destruct (_ !! "generationId") as [v|]; simpl; try apply Hfailed.
    destruct (truthy v); [done | apply Hfailed].
Qed.

(** A run whose poll ends with a turn that throws. *)
Lemma execute_ends_with_throw (tr : list event) (generationId : jsval) (k : nat)
    (e : exn) :
  let post := submission_request apiKey DEFAULT_TIMEOUT_SECONDS
                (body_of fields read_prompt read_style) in
  job_id_of (w (count_fetches tr) post) = Some generationId ->
  (k < 30)%nat ->
  (forall i : nat, (i < k)%nat ->
     keeps_waiting (w (S (count_fetches tr) + i)%nat
                      (status_request generationId apiKey)) = true) ->
  cycle_outcome readResponseText
    (w (S (count_fetches tr) + k)%nat (status_request generationId apiKey)) = Throw e ->
  execute readStringParam readResponseText DEFAULT_TIMEOUT_SECONDS ToolResult
    jsonResult typeErrorMessage w apiKey (VObj fields) tr
  = (Ok (jsonResult (Failed (error_text typeErrorMessage e) [])),
     tr ++ EvFetch post :: cycles (S k) generationId apiKey).
Proof.
  intros post Hjob Hk Hwait Hthrow.
  rewrite (execute_polls _ _ _ _ _ _ _ _ _ _ _ prompt_read style_read tr
             generationId Hjob).
  fold post.
  rewrite (poll_stops_with readResponseText w generationId apiKey k 60
             (tr ++ [EvFetch post]) e).
  - by rewrite <- app_assoc.
  - change (maxAttempts_of 60) with 30. lia.
  - intros i Hi. rewrite count_fetches_snoc_fetch. by apply Hwait.
  - by rewrite count_fetches_snoc_fetch.
Qed.

(** A run whose poll ends with a turn that returns. *)
Lemma execute_ends_with_urls (tr : list event) (generationId : jsval) (k : nat)
    (urls : list jsval) :
  let post := submission_request apiKey DEFAULT_TIMEOUT_SECONDS
                (body_of fields read_prompt read_style) in
  job_id_of (w (count_fetches tr) post) = Some generationId ->
  (k < 30)%nat ->
  (forall i : nat, (i < k)%nat ->
     keeps_waiting (w (S (count_fetches tr) + i)%nat
                      (status_request generationId apiKey)) = true) ->
  cycle_outcome readResponseText
    (w (S (count_fetches tr) + k)%nat (status_request generationId apiKey))
  = Ok (Some urls) ->
  execute readStringParam readResponseText DEFAULT_TIMEOUT_SECONDS ToolResult
    jsonResult typeErrorMessage w apiKey (VObj fields) tr
  = (Ok (jsonResult (Generated generationId urls (length urls))),
     tr ++ EvFetch post :: cycles (S k) generationId apiKey).
Proof.
  intros post Hjob Hk Hwait Hurls.
  rewrite (execute_polls _ _ _ _ _ _ _ _ _ _ _ prompt_read style_read tr
             generationId Hjob).
  fold post.
  rewrite (poll_loop_decided readResponseText w generationId apiKey k 60
             (tr ++ [EvFetch post])).
  - rewrite count_fetches_snoc_fetch, Hurls. by rewrite <- app_assoc.
  - change (maxAttempts_of 60) with 30. lia.
  - intros i Hi. rewrite count_fetches_snoc_fetch. by apply Hwait.
Qed.

(** A run whose job stays pending for the whole budget. *)
Lemma execute_times_out (tr : list event) (generationId : jsval) :
  let post := submission_request apiKey DEFAULT_TIMEOUT_SECONDS
                (body_of fields read_prompt read_style) in
  job_id_of (w (count_fetches tr) post) = Some generationId ->
  (forall i : nat, (i < 30)%nat ->
     keeps_waiting (w (S (count_fetches tr) + i)%nat
                      (status_request generationId apiKey)) = true) ->
  execute readStringParam readResponseText DEFAULT_TIMEOUT_SECONDS ToolResult
    jsonResult typeErrorMessage w apiKey (VObj fields) tr
  = (Ok (jsonResult (Failed "Leonardo generation timed out after 60 seconds" [])),
     tr ++ EvFetch post :: cycles 30 generationId apiKey).
Proof.
  intros post Hjob Hwait.
  rewrite (execute_polls _ _ _ _ _ _ _ _ _ _ _ prompt_read style_read tr
             generationId Hjob).
  fold post. unfold pollForCompletion.
  change (loop_trips 0 (maxAttempts_of 60)) with (30 + 0)%nat.
  rewrite poll_loop_waiting.
  - simpl. by rewrite <- app_assoc.
  - intros i Hi. rewrite count_fetches_snoc_fetch. by apply Hwait.
Qed.

End Verdict.

(** C2. Whatever the arguments, the helpers and the remote service do,
    [execute] does not throw: it returns [jsonResult] of
    [{generationId, imageUrls, count}], with a non-empty list of URLs and
    their number as count, or of [{error, imageUrls: []}].  Which of the
    two is fixed by the run.  Arguments that cannot be read give the
    error of the exception and send nothing.  Once they are read, the
    result is the success exactly when the submission gave a job
    identifier and the poll for it returned its URLs; a rejected
    submission, a non-success status, a reply without job identifier, a
    rejected or malformed status reply, a FAILED job, a COMPLETE one
    without usable URLs and a job pending for the whole budget each give
    the error with the message of that failure. *)
Theorem execute_never_throws
    (readStringParam : jsval -> string -> bool -> Result (option string))
    (readResponseText : Response -> Z -> Result string)
    (DEFAULT_TIMEOUT_SECONDS : Z) (ToolResult : Type) (jsonResult : payload -> ToolResult)
    (typeErrorMessage : engine_fault -> string) (w : World) (apiKey : string) :
  let message_of (e : exn) :=
    match e with
    | Error message => message
    | TypeError fault => typeErrorMessage fault
    | NonError rendering => rendering
    end in
  let run (args : jsval) (tr : list event) :=
    execute readStringParam readResponseText DEFAULT_TIMEOUT_SECONDS ToolResult
      jsonResult typeErrorMessage w apiKey args tr in
  (forall (args : jsval) (tr : list event),
     exists (p : payload) (tr' : list event),
       run args tr = (Ok (jsonResult p), tr')
       /\ ((exists generationId imageUrls,
              p = Generated generationId imageUrls (length imageUrls) /\ imageUrls <> [])
           \/ (exists error, p = Failed error [])))
  /\ (forall (args : jsval) (tr : list event) (e : exn),
        readStringParam args "prompt" true = Throw e ->
        run args tr = (Ok (jsonResult (Failed (message_of e) [])), tr))
  /\ (forall (fields : gmap string jsval) (read_prompt read_style : option string)
             (tr : list event),
        readStringParam (VObj fields) "prompt" true = Ok read_prompt ->
        readStringParam (VObj fields) "preset_style" false = Ok read_style ->
        let post := submission_request apiKey DEFAULT_TIMEOUT_SECONDS
                      (body_of fields read_prompt read_style) in
        let submitted := tr ++ [EvFetch post] in
        (exists (p : payload) (tr' : list event),
           run (VObj fields) tr = (Ok (jsonResult p), tr')
           /\ match p with
              | Generated generationId imageUrls count =>
                  job_id_of (w (count_fetches tr) post) = Some generationId
                  /\ pollForCompletion readResponseText w generationId apiKey 60 submitted
                     = (Ok imageUrls, tr')
                  /\ count = length imageUrls
                  /\ imageUrls <> []
              | Failed error imageUrls =>
                  imageUrls = []
                  /\ ((job_id_of (w (count_fetches tr) post) = None /\ tr' = submitted)
                      \/ exists generationId e,
                           job_id_of (w (count_fetches tr) post) = Some generationId
                           /\ pollForCompletion readResponseText w generationId apiKey 60
                                submitted
                              = (Throw e, tr')
                           /\ error = message_of e)
              end)
        /\ (forall e : exn,
              w (count_fetches tr) post = Throw e ->
              run (VObj fields) tr = (Ok (jsonResult (Failed (message_of e) [])), submitted))
        /\ (forall (res : Response) (detail : string),
              w (count_fetches tr) post = Ok res ->
              ok res = false ->
              readResponseText res 4000 = Ok detail ->
              run (VObj fields) tr
              = (Ok (jsonResult
                       (Failed ("Leonardo generation request failed ("
                                  +:+ pretty (status res) +:+ "): "
                                  +:+ (if decide (detail = "") then statusText res
                                       else detail)) [])),
                 submitted))
        /\ (lacks_job_id (w (count_fetches tr) post) = true ->
            run (VObj fields) tr
            = (Ok (jsonResult (Failed "Leonardo: no generationId in response" [])),
               submitted))
        /\ (forall (generationId : jsval) (k : nat),
              job_id_of (w (count_fetches tr) post) = Some generationId ->
              (k < 30)%nat ->
              (forall i : nat, (i < k)%nat ->
                 keeps_waiting (w (S (count_fetches tr) + i)%nat
                                  (status_request generationId apiKey)) = true) ->
              let reply := w (S (count_fetches tr) + k)%nat
                             (status_request generationId apiKey) in
              let ended := tr ++ EvFetch post :: cycles (S k) generationId apiKey in
              (forall e : exn,
                 reply = Throw e ->
                 run (VObj fields) tr = (Ok (jsonResult (Failed (message_of e) [])), ended))
              /\ (forall (res : Response) (data : gmap string jsval),
                    reply = Ok res -> ok res = true -> json res = Ok (VObj data) ->
                    data !! "generations_by_pk" = None ->
                    run (VObj fields) tr
                    = (Ok (jsonResult
                             (Failed "Leonardo: unexpected poll response shape" [])),
                       ended))
              /\ (reports_status reply "FAILED" = true ->
                  run (VObj fields) tr
                  = (Ok (jsonResult (Failed "Leonardo generation failed" [])), ended))
              /\ (forall generation : gmap string jsval,
                    generation_of reply = Some generation ->
                    has_status generation "COMPLETE" = true ->
                    (generation !! "generated_images" = None
                     \/ exists images,
                          generation !! "generated_images" = Some (image_array images)
                          /\ usable_urls images = []) ->
                    run (VObj fields) tr
                    = (Ok (jsonResult
                             (Failed
                                "Leonardo generation complete but no image URLs returned"
                                [])),
                       ended))
              /\ (forall (generation : gmap string jsval)
                         (images : list (gmap string jsval)),
                    generation_of reply = Some generation ->
                    has_status generation "COMPLETE" = true ->
                    generation !! "generated_images" = Some (image_array images) ->
                    usable_urls images <> [] ->
                    run (VObj fields) tr
                    = (Ok (jsonResult (Generated generationId (usable_urls images)
                                         (length (usable_urls images)))),
                       ended)))
        /\ (forall generationId : jsval,
              job_id_of (w (count_fetches tr) post) = Some generationId ->
              (forall i : nat, (i < 30)%nat ->
                 keeps_waiting (w (S (count_fetches tr) + i)%nat
                                  (status_request generationId apiKey)) = true) ->
              run (VObj fields) tr
              = (Ok (jsonResult
                       (Failed "Leonardo generation timed out after 60 seconds" [])),
                 tr ++ EvFetch post :: cycles 30 generationId apiKey))).
Proof.
  intros message_of run.
  assert (forall e, error_text typeErrorMessage e = message_of e) as Hmsg by done.
  split; [|split].
  - intros args tr.
    destruct (execute_outcome readStringParam readResponseText DEFAULT_TIMEOUT_SECONDS
                ToolResult jsonResult typeErrorMessage w apiKey args tr)
      as (p & tr' & Hrun & Hshape & _).
    exists p, tr'. split; [exact Hrun|].
    destruct p as [generationId imageUrls count | error imageUrls]; simpl in Hshape.
    + left. destruct Hshape as (_ & Hne & ->). by eexists _, _.
    + right. subst. by eexists.
  - intros args tr e Hprompt. unfold run, execute, try_catch, lift, throw, fetch.
    unfold mbind, M_bind, bind, mret, M_ret, ret; simpl. by rewrite Hprompt.
  - intros fields read_prompt read_style tr Hprompt Hstyle post submitted.
    split; [|split; [|split; [|split; [|split]]]].
    + destruct (execute_verdict readStringParam readResponseText DEFAULT_TIMEOUT_SECONDS
                  ToolResult jsonResult typeErrorMessage w apiKey fields read_prompt
                  read_style Hprompt Hstyle tr) as (p & tr' & Hrun & Hp).
      exists p, tr'. split; [exact Hrun|].
      destruct p as [generationId imageUrls count | error imageUrls].
      * destruct Hp as (Hjob & Hpoll & Hcount). repeat split; try done.
        unfold pollForCompletion in Hpoll. by eapply poll_loop_nonempty.
      * exact Hp.
    + intros e Hreply. unfold run.
      rewrite (execute_submits _ _ _ _ _ _ _ _ _ _ _ Hprompt Hstyle).
      cbv zeta. fold post. by rewrite Hreply.
    + intros res detail Hreply Hok Hdetail. unfold run.
      rewrite (execute_submits _ _ _ _ _ _ _ _ _ _ _ Hprompt Hstyle).
      cbv zeta. fold post. rewrite Hreply, Hok, Hdetail. simpl.
      unfold or_str. by destruct (String.eqb_spec detail ""), (decide (detail = "")).
    + intros (res & data & Hreply & Hok & Hjson & Hjob)%lacks_job_id_true.
      unfold run. rewrite (execute_submits _ _ _ _ _ _ _ _ _ _ _ Hprompt Hstyle).
      cbv zeta. fold post. rewrite Hreply, Hok, Hjson. simpl.
      destruct Hjob as [Hjob | (job & Hjob & Hid)]; rewrite Hjob; simpl; [done|].
      unfold get_prop_opt; simpl. by rewrite Hid.
    + intros generationId k Hjob Hk Hwait reply ended.
      pose proof (execute_ends_with_throw readStringParam readResponseText
                    DEFAULT_TIMEOUT_SECONDS ToolResult jsonResult typeErrorMessage w
                    apiKey fields read_prompt read_style Hprompt Hstyle tr generationId k)
        as Hthrow.
      cbv zeta in Hthrow. fold post reply ended in Hthrow.
      split; [|split; [|split; [|split]]].
      * intros e Hreply. unfold run. rewrite (Hthrow e) by (try done; by rewrite Hreply).
        done.
      * intros res data Hreply Hok Hjson Hdata. unfold run.
        rewrite (Hthrow (Error "Leonardo: unexpected poll response shape")); try done.
        rewrite Hreply. apply (cycle_outcome_shape _ res data); try done.
        by rewrite Hdata.
      * intros Hfailed. unfold run.
        rewrite (Hthrow (Error "Leonardo generation failed")); try done.
        by apply cycle_outcome_failed.
      * intros generation Hgen Hst Himages. unfold run.
        rewrite (Hthrow (Error "Leonardo generation complete but no image URLs returned"));
          try done.
        destruct Himages as [Hnone | (images & Himages & Hnil)].
        -- by apply (cycle_outcome_complete_missing _ _ generation).
        -- rewrite (cycle_outcome_complete _ _ generation images) by done.
           by rewrite Hnil.
      * intros generation images Hgen Hst Himages Husable. unfold run.
        apply (execute_ends_with_urls readStringParam readResponseText
                 DEFAULT_TIMEOUT_SECONDS ToolResult jsonResult typeErrorMessage w
                 apiKey fields read_prompt read_style Hprompt Hstyle tr generationId k);
          try done.
        fold reply. rewrite (cycle_outcome_complete _ _ generation images) by done.
        by destruct (usable_urls images).
    + intros generationId Hjob Hwait. unfold run.
      by apply (execute_times_out readStringParam readResponseText
                  DEFAULT_TIMEOUT_SECONDS ToolResult jsonResult typeErrorMessage w
                  apiKey fields read_prompt read_style Hprompt Hstyle tr generationId).
Qed.

Lemma execute_never_throws_witness :
  plain_readStringParam (VObj bare_fields) "prompt" true = Ok (Some "a cat")
  /\ plain_readStringParam (VObj bare_fields) "preset_style" false = Ok None
  /\ run_execute
       (scripted [generation_reply "PENDING" []; generation_reply "COMPLETE" abc_images])
       "key" (VObj bare_fields)
     = (Ok (Generated job1 [VStr "a"; VStr "b"] 2),
        [] ++ EvFetch bare_post :: cycles 2 job1 "key")
  /\ run_execute (scripted [generation_reply "FAILED" []]) "key" (VObj bare_fields)
     = (Ok (Failed "Leonardo generation failed" []),
        [] ++ EvFetch bare_post :: cycles 1 job1 "key")
  /\ run_execute (scripted [generation_reply "COMPLETE" blank_images]) "key"
       (VObj bare_fields)
     = (Ok (Failed "Leonardo generation complete but no image URLs returned" []),
        [] ++ EvFetch bare_post :: cycles 1 job1 "key")
  /\ run_execute (scripted []) "key" (VObj bare_fields)
     = (Ok (Failed "Leonardo generation timed out after 60 seconds" []),
        [] ++ EvFetch bare_post :: cycles 30 job1 "key")
  /\ run_execute unreachable "key" (VObj bare_fields)
     = (Ok (Failed "fetch failed" []), [] ++ [EvFetch bare_post])
  /\ run_execute (fun _ _ => reply_json (obj [])) "key" (VObj bare_fields)
     = (Ok (Failed "Leonardo: no generationId in response" []),
        [] ++ [EvFetch bare_post])
  /\ run_execute (scripted []) "key" (obj [("width", VNum 512)])
     = (Ok (Failed "prompt required" []), []).
Proof.
  split; [reflexivity|]. split; [reflexivity|].
  split; [|split; [|split; [|split; [|split; [|split]]]]].
  - destruct (execute_never_throws plain_readStringParam plain_readResponseText 30
                payload id plain_typeErrorMessage
                (scripted [generation_reply "PENDING" [];
                           generation_reply "COMPLETE" abc_images]) "key")
      as (_ & _ & Hread).
    destruct (Hread bare_fields (Some "a cat") None [] eq_refl eq_refl)
      as (_ & _ & _ & _ & Hturn & _).
    destruct (Hturn job1 1%nat) as (_ & _ & _ & _ & Hcomplete);
      [reflexivity | lia | intros [|i] Hi; [reflexivity | lia] |].
    apply (Hcomplete (complete_generation abc_images) abc_images);
      [reflexivity | reflexivity | reflexivity | discriminate].
  - destruct (execute_never_throws plain_readStringParam plain_readResponseText 30
                payload id plain_typeErrorMessage
                (scripted [generation_reply "FAILED" []]) "key")
      as (_ & _ & Hread).
    destruct (Hread bare_fields (Some "a cat") None [] eq_refl eq_refl)
      as (_ & _ & _ & _ & Hturn & _).
    destruct (Hturn job1 0%nat) as (_ & _ & Hfailed & _);
      [reflexivity | lia | intros i Hi; lia |].
    apply Hfailed. reflexivity.
  - destruct (execute_never_throws plain_readStringParam plain_readResponseText 30
                payload id plain_typeErrorMessage
                (scripted [generation_reply "COMPLETE" blank_images]) "key")
      as (_ & _ & Hread).
    destruct (Hread bare_fields (Some "a cat") None [] eq_refl eq_refl)
      as (_ & _ & _ & _ & Hturn & _).
    destruct (Hturn job1 0%nat) as (_ & _ & _ & Hblank & _);
      [reflexivity | lia | intros i Hi; lia |].
    apply (Hblank (complete_generation blank_images)); [reflexivity | reflexivity |].
    right. exists blank_images. split; reflexivity.
  - destruct (execute_never_throws plain_readStringParam plain_readResponseText 30
                payload id plain_typeErrorMessage (scripted []) "key")
      as (_ & _ & Hread).
    destruct (Hread bare_fields (Some "a cat") None [] eq_refl eq_refl)
      as (_ & _ & _ & _ & _ & Htimeout).
    apply (Htimeout job1); [reflexivity | intros i _; reflexivity].
  - destruct (execute_never_throws plain_readStringParam plain_readResponseText 30
                payload id plain_typeErrorMessage unreachable "key")
      as (_ & _ & Hread).
    destruct (Hread bare_fields (Some "a cat") None [] eq_refl eq_refl)
      as (_ & Htransport & _).
    apply (Htransport (Error "fetch failed")). reflexivity.
  - destruct (execute_never_throws plain_readStringParam plain_readResponseText 30
                payload id plain_typeErrorMessage (fun _ _ => reply_json (obj [])) "key")
      as (_ & _ & Hread).
    destruct (Hread bare_fields (Some "a cat") None [] eq_refl eq_refl)
      as (_ & _ & _ & Hlacks & _).
    apply Hlacks. reflexivity.
  - destruct (execute_never_throws plain_readStringParam plain_readResponseText 30
                payload id plain_typeErrorMessage (scripted []) "key")
      as (_ & Hunread & _).
    apply (Hunread (obj [("width", VNum 512)]) [] (Error "prompt required")).
    reflexivity.
Defined.
